(** * Demo Marketplace backend (src/main.py): sessions, carts and checkout

    A shallow embedding of [main.py]: the classes [Cart], [Database] and
    [SessionHandler] and the routes over them.

    Python objects are mutated in place and exceptions leave every mutation
    made before them in force, so a method is a function from the state
    before the call to an outcome (a returned value or a raised exception)
    together with the state after the call. *)

From Stdlib Require Import ZArith Lia Ascii String.
From stdpp Require Import gmap strings list fin_maps pretty.

Local Open Scope Z_scope.

(** ** Outcomes and the state-and-exception monad *)

(** The Python exceptions this program can raise. *)
Inductive exn : Type :=
| KeyError
| ValueError
| AttributeError.

Inductive outcome (A : Type) : Type :=
| Return (a : A)
| Raise (e : exn).
Arguments Return {A} a.
Arguments Raise {A} e.

Definition Py (S A : Type) : Type := S → outcome A * S.

#[export] Instance py_ret {S} : MRet (Py S) := λ A a s, (Return a, s).

#[export] Instance py_bind {S} : MBind (Py S) := λ A B k m s,
  match m s with
  | (Return a, s') => k a s'
  | (Raise e, s') => (Raise e, s')
  end.

Definition raise {S A} (e : exn) : Py S A := λ s, (Raise e, s).
Definition gets {S A} (f : S → A) : Py S A := λ s, (Return (f s), s).
Definition modify {S} (f : S → S) : Py S unit := λ s, (Return tt, f s).

(** Lifts a computation that cannot change the state from a value read off
    the state ([self.products[id]] and the like). *)
Definition read {S A} (f : S → outcome A) : Py S A := λ s, (f s, s).

Definition result_of {S A} (r : outcome A * S) : outcome A := fst r.
Definition state_of {S A} (r : outcome A * S) : S := snd r.

(** ** Python's dict, as a finite map *)

Section dict.
Context {K : Type} `{Countable K} {V : Type}.

(** [k in d] *)
Definition dict_contains (k : K) (d : gmap K V) : bool :=
  bool_decide (is_Some (d !! k)).

(** [d[k]], raising [KeyError] for an absent key *)
Definition dict_getitem (k : K) (d : gmap K V) : outcome V :=
  match d !! k with
  | Some v => Return v
  | None => Raise KeyError
  end.

(** [d[k] = v] *)
Definition dict_setitem (k : K) (v : V) (d : gmap K V) : gmap K V :=
  <[k := v]> d.

(** [del d[k]], raising [KeyError] for an absent key *)
Definition dict_delitem (k : K) (d : gmap K V) : outcome (gmap K V) :=
  match d !! k with
  | Some _ => Return (delete k d)
  | None => Raise KeyError
  end.

(** [d.items()]; a dict is compared by its entries, and nothing in this
    program depends on the order in which they are visited. *)
Definition dict_items (d : gmap K V) : list (K * V) := map_to_list d.
End dict.

(** ** class Cart *)

Module Cart.

Record CartItem : Type := { id : Z; quantity : Z }.

(** [CartSchema]: the response model of a cart. *)
Record CartSchema : Type := { items : list CartItem }.

(** The attributes of a [Cart] object. *)
Record t : Type := { products : gmap Z Z }.

(** [__init__] *)
Definition init : t := {| products := ∅ |}.

(** [self.products[k]], [self.products[k] = v], [del self.products[k]]
    and [k in self.products] *)
Definition get_products (k : Z) : Py t Z :=
  read (λ self, dict_getitem k (products self)).

Definition set_products (k v : Z) : Py t unit :=
  modify (λ self, {| products := dict_setitem k v (products self) |}).

Definition del_products (k : Z) : Py t unit :=
  λ self, match dict_delitem k (products self) with
          | Return d => (Return tt, {| products := d |})
          | Raise e => (Raise e, self)
          end.

Definition has_product (k : Z) : Py t bool :=
  gets (λ self, dict_contains k (products self)).

(** [addItem(self, id, num)] *)
Definition addItem (id num : Z) : Py t unit :=
  present ← has_product id;
  (if negb present then set_products id 0 else mret tt);;
  old ← get_products id;
  set_products id (old + num).

(** [removeItem(self, id, num)]; it returns [None]. *)
Definition removeItem (id num : Z) : Py t unit :=
  present ← has_product id;
  if negb present then raise KeyError else
  stored ← get_products id;
  if bool_decide (stored < num) then raise ValueError else
  old ← get_products id;
  set_products id (old - num);;
  left ← get_products id;
  if bool_decide (left = 0) then del_products id else mret tt.

(** [getCart(self)] *)
Definition getCart (self : t) : CartSchema :=
  {| items := (λ '(id, qty), {| id := id; quantity := qty |})
                <$> dict_items (products self) |}.

End Cart.

(** ** class Database *)

Module Database.

(** [ProductDatabaseSchema.Product] *)
Record Product : Type :=
  { id : Z; name : string; category : Z; price : Z }.

(** [CategoryDatabaseSchema.Category] *)
Record Category : Type := { cat_id : Z; cat_name : string }.

(** The attributes of the [Database] object; each table is the [data]
    dict of its schema. *)
Record t : Type :=
  { productDB : gmap Z Product; categoryDB : gmap Z Category }.

(** What [getProduct] hands back: an instance taken from the table or,
    for an unknown ID, the model class [ProductDatabaseSchema.Product]
    itself, since the method binds [response] to the class and never
    calls it. *)
Inductive ProductRef : Type :=
| ProductClass
| ProductInstance (p : Product).

(** [getProduct(self, product)] *)
Definition getProduct (product : Z) (self : t) : ProductRef :=
  let response := ProductClass in
  match productDB self !! product with
  | Some p => ProductInstance p
  | None => response
  end.

(** [response.price].  An instance carries its fields.  The class object
    does not: pydantic's model metaclass gathers the annotated fields
    ([id], [name], [category], [price]) of a [BaseModel] subclass into its
    field table and leaves them out of the class namespace, so looking
    [price] up on the class raises [AttributeError]. *)
Definition getattr_price (response : ProductRef) : outcome Z :=
  match response with
  | ProductInstance p => Return (price p)
  | ProductClass => Raise AttributeError
  end.

(** [newProduct(self, product)] *)
Definition newProduct (product : Product) : Py t bool :=
  λ self,
    if dict_contains (id product) (productDB self) then (Return false, self)
    else (Return true,
          {| productDB := dict_setitem (id product) product (productDB self);
             categoryDB := categoryDB self |}).

(** [updateProduct(self, product)] *)
Definition updateProduct (product : Product) : Py t bool :=
  λ self,
    if dict_contains (id product) (productDB self)
    then (Return true,
          {| productDB := dict_setitem (id product) product (productDB self);
             categoryDB := categoryDB self |})
    else (Return false, self).

(** [deleteProduct(self, product)] *)
Definition deleteProduct (product : Z) : Py t bool :=
  λ self,
    if negb (dict_contains product (productDB self)) then (Return false, self)
    else match dict_delitem product (productDB self) with
         | Return d =>
             (Return true, {| productDB := d; categoryDB := categoryDB self |})
         | Raise e => (Raise e, self)
         end.

(** [newCategory(self, category)] *)
Definition newCategory (category : Category) : Py t bool :=
  λ self,
    if dict_contains (cat_id category) (categoryDB self)
    then (Return false, self)
    else (Return true,
          {| productDB := productDB self;
             categoryDB :=
               dict_setitem (cat_id category) category (categoryDB self) |}).

(** [deleteCategory(self, category)] *)
Definition deleteCategory (category : Z) : Py t bool :=
  λ self,
    if dict_contains category (categoryDB self)
    then match dict_delitem category (categoryDB self) with
         | Return d =>
             (Return true, {| productDB := productDB self; categoryDB := d |})
         | Raise e => (Raise e, self)
         end
    else (Return false, self).

End Database.

(** ** class SessionHandler *)

Module SessionHandler.

(** [ValidationDatabase.ValidationSchema] *)
Record ValidationSchema : Type :=
  { email : string; password : string; isAdmin : bool }.

(** [PortalSchema] *)
Record PortalSchema : Type := { modes : gmap string string }.

(** The attributes of the [SessionHandler] object; [database] is the
    [credentials] list of the validation database. *)
Record t : Type :=
  { userTokens : gset string;
    adminTokens : gset string;
    carts : gmap string Cart.t;
    database : list ValidationSchema;
    paymentModes : PortalSchema }.

Definition add_userToken (tok : string) (self : t) : t :=
  {| userTokens := {[tok]} ∪ userTokens self;
     adminTokens := adminTokens self;
     carts := carts self;
     database := database self;
     paymentModes := paymentModes self |}.

Definition add_adminToken (tok : string) (self : t) : t :=
  {| userTokens := userTokens self;
     adminTokens := {[tok]} ∪ adminTokens self;
     carts := carts self;
     database := database self;
     paymentModes := paymentModes self |}.

Definition set_carts (d : gmap string Cart.t) (self : t) : t :=
  {| userTokens := userTokens self;
     adminTokens := adminTokens self;
     carts := d;
     database := database self;
     paymentModes := paymentModes self |}.

End SessionHandler.

(** ** The process: the module-level objects and the operating system *)

(** [sessions] and [db] are the two module-level objects.  [os.urandom]
    reads the operating system's entropy source, here a tape of bytes and
    the number of bytes already handed out. *)
Record World : Type :=
  { sessions : SessionHandler.t;
    db : Database.t;
    entropy : nat → Byte.byte;
    drawn : nat }.

Definition with_sessions (f : SessionHandler.t → SessionHandler.t)
    (w : World) : World :=
  {| sessions := f (sessions w); db := db w;
     entropy := entropy w; drawn := drawn w |}.

Definition with_db (d : Database.t) (w : World) : World :=
  {| sessions := sessions w; db := d;
     entropy := entropy w; drawn := drawn w |}.

(** The [n] bytes of the tape from position [from] on. *)
Definition tape_bytes (tape : nat → Byte.byte) (from n : nat)
    : list Byte.byte :=
  (λ i, tape (from + i)%nat) <$> seq 0 n.

(** The world once [n] more bytes of the tape have been handed out. *)
Definition advance (n : nat) (w : World) : World :=
  {| sessions := sessions w; db := db w;
     entropy := entropy w; drawn := (drawn w + n)%nat |}.

(** [os.urandom(n)] *)
Definition urandom (n : nat) : Py World (list Byte.byte) :=
  λ w, (Return (tape_bytes (entropy w) (drawn w) n), advance n w).

Definition hexdigit (n : N) : ascii :=
  default "0"%char (list_ascii_of_string "0123456789abcdef" !! N.to_nat n).

(** [bytes.hex()]: two lower-case hexadecimal digits for each byte. *)
Fixpoint hex (bs : list Byte.byte) : string :=
  match bs with
  | [] => ""
  | b :: rest =>
      String (hexdigit (Byte.to_N b / 16))
        (String (hexdigit (Byte.to_N b mod 16)) (hex rest))
  end.

(** [cred.email == email and cred.password == password] *)
Definition cred_matches (cred : SessionHandler.ValidationSchema)
    (email password : string) : bool :=
  bool_decide (SessionHandler.email cred = email)
  && bool_decide (SessionHandler.password cred = password).

(** The [for cred in self.database.credentials] loop of [login], from the
    records still to visit. *)
Fixpoint login_scan (credentials : list SessionHandler.ValidationSchema)
    (email password : string) : Py World string :=
  match credentials with
  | [] => mret ""
  | cred :: rest =>
      bs ← urandom 8;
      let sessionToken := hex bs in
      if cred_matches cred email password then
        (if negb (SessionHandler.isAdmin cred)
         then modify (with_sessions (SessionHandler.add_userToken sessionToken))
         else modify (with_sessions (SessionHandler.add_adminToken sessionToken)));;
        mret sessionToken
      else login_scan rest email password
  end.

(** [SessionHandler.login(self, email, password)], on the object
    [sessions]. *)
Definition login (email password : string) : Py World string :=
  credentials ← gets (λ w, SessionHandler.database (sessions w));
  login_scan credentials email password.

(** ** Routes *)

(** The payloads the routes return. *)
Inductive Response : Type :=
| Message (msg : string)
    (* {"message": msg} *)
| AuthenticationError
    (* {"Authentication Error": "Unknown credentials"} *)
| SessionID (sessionID : string)
    (* {"sessionID": sessionID} *)
| SessionError
    (* {"Session Error": "Not Authorized"} *)
| UserNotFound
    (* {"Response": "User Not Found"} *)
| PaymentModeError (known : SessionHandler.PortalSchema)
    (* {"Payment Mode Error": "Unknown Payment Mode",
        "Known Payment Modes": known} *)
| CartResponse (cart : Cart.CartSchema)
| ProductResponse (product : Database.ProductRef)
| BoolResponse (b : bool).

(** [sessions.carts[sessionID]] *)
Definition cart_of (sessionID : string) : Py World Cart.t :=
  read (λ w, dict_getitem sessionID (SessionHandler.carts (sessions w))).

(** The world with [cart] under [sessionID] in [sessions.carts]. *)
Definition bind_cart (sessionID : string) (cart : Cart.t) (w : World) : World :=
  with_sessions
    (λ s, SessionHandler.set_carts
            (dict_setitem sessionID cart (SessionHandler.carts s)) s)
    w.

(** [sessions.carts[sessionID].method(...)]: the method runs on the cart
    object the dict holds, and what it did to the object stays done
    whether it returns or raises. *)
Definition on_cart {A} (sessionID : string) (method : Py Cart.t A)
    : Py World A :=
  λ w, match dict_getitem sessionID (SessionHandler.carts (sessions w)) with
       | Return cart =>
           let '(r, cart') := method cart in (r, bind_cart sessionID cart' w)
       | Raise e => (Raise e, w)
       end.

(** [db.method(...)] for the methods that change a table. *)
Definition on_db {A} (method : Py Database.t A) : Py World A :=
  λ w, let '(r, d) := method (db w) in (r, with_db d w).

Definition is_user (sessionID : string) : Py World bool :=
  gets (λ w, bool_decide (sessionID ∈ SessionHandler.userTokens (sessions w))).

Definition is_admin (sessionID : string) : Py World bool :=
  gets (λ w, bool_decide (sessionID ∈ SessionHandler.adminTokens (sessions w))).

(** [sessionID in sessions.carts.keys()] *)
Definition has_cart (sessionID : string) : Py World bool :=
  gets (λ w, dict_contains sessionID (SessionHandler.carts (sessions w))).

(** [GET /login/{email}/{password}] *)
Definition getSessionID (email password : string) : Py World Response :=
  sessionID ← login email password;
  if bool_decide (sessionID = "") then mret AuthenticationError else
  modify (bind_cart sessionID Cart.init);;
  mret (SessionID sessionID).

(** [GET /cart/get/{sessionID}] *)
Definition cartGet (sessionID : string) : Py World Response :=
  bound ← has_cart sessionID;
  if (bound : bool) then
    cart ← cart_of sessionID;
    mret (CartResponse (Cart.getCart cart))
  else mret UserNotFound.

(** [CartAddSchema] *)
Record CartAddSchema : Type :=
  { req_sessionID : string; req_product : Z; req_quantity : Z }.

(** [POST /cart/add/] *)
Definition cartAdd (request : CartAddSchema) : Py World Response :=
  user ← is_user (req_sessionID request);
  if negb user then mret UserNotFound else
  (if bool_decide (0 ≤ req_quantity request)
   then on_cart (req_sessionID request)
          (Cart.addItem (req_product request) (req_quantity request))
   else on_cart (req_sessionID request)
          (Cart.removeItem (req_product request) (- req_quantity request)));;
  cart ← cart_of (req_sessionID request);
  mret (CartResponse (Cart.getCart cart)).

(** The running total of [cartCheckout]'s loop over
    [sessions.carts[sessionID].products.items()], from the entries still
    to visit and the total so far. *)
Fixpoint checkout_total (entries : list (Z * Z)) (netTotal : Z)
    : Py World Z :=
  match entries with
  | [] => mret netTotal
  | (item, qty) :: rest =>
      response ← gets (λ w, Database.getProduct item (db w));
      price ← read (λ _, Database.getattr_price response);
      checkout_total rest (netTotal + price * qty)
  end.

(** The f-string of the confirmation; [pretty] prints an integer in
    decimal as [str] does. *)
Definition payment_message (portal : string) (netTotal : Z) : string :=
  "You will be shortly redirected to the portal for " +:+ portal
  +:+ " to make a payment of Rs. " +:+ pretty netTotal.

Definition nothing_payable : string := "No amount payable!".

(** [GET /cart/checkout/{mode}/{sessionID}] *)
Definition cartCheckout (mode sessionID : string) : Py World Response :=
  user ← is_user sessionID;
  if negb user then mret SessionError else
  known ← gets (λ w, dict_contains mode
                       (SessionHandler.modes
                          (SessionHandler.paymentModes (sessions w))));
  if negb (known : bool) then
    paymentModes ← gets (λ w, SessionHandler.paymentModes (sessions w));
    mret (PaymentModeError paymentModes)
  else
  cart ← cart_of sessionID;
  netTotal ← checkout_total (dict_items (Cart.products cart)) 0;
  if bool_decide (netTotal = 0) then mret (Message nothing_payable) else
  portal ← read (λ w, dict_getitem mode
                        (SessionHandler.modes
                           (SessionHandler.paymentModes (sessions w))));
  mret (Message (payment_message portal netTotal)).

(** [POST /new/product/{sessionID}] *)
Definition newProduct (sessionID : string) (product : Database.Product)
    : Py World Response :=
  admin ← is_admin sessionID;
  if negb admin then mret SessionError else
  on_db (Database.newProduct product);;
  response ← gets (λ w, Database.getProduct (Database.id product) (db w));
  mret (ProductResponse response).

(** [POST /update/product/{sessionID}] *)
Definition updateProduct (sessionID : string) (product : Database.Product)
    : Py World Response :=
  admin ← is_admin sessionID;
  if negb admin then mret SessionError else
  on_db (Database.updateProduct product);;
  response ← gets (λ w, Database.getProduct (Database.id product) (db w));
  mret (ProductResponse response).

(** [POST /delete/product/{product}/{sessionID}] *)
Definition deleteProduct (product : Z) (sessionID : string)
    : Py World Response :=
  admin ← is_admin sessionID;
  if negb admin then mret SessionError else
  response ← on_db (Database.deleteProduct product);
  mret (BoolResponse response).

(** [POST /new/category/{sessionID}] *)
Definition newCategory (sessionID : string) (category : Database.Category)
    : Py World Response :=
  admin ← is_admin sessionID;
  if negb admin then mret SessionError else
  response ← on_db (Database.newCategory category);
  mret (BoolResponse response).

(** [POST /delete/category/{category}/{sessionID}] *)
Definition deleteCategory (category : Z) (sessionID : string)
    : Py World Response :=
  admin ← is_admin sessionID;
  if negb admin then mret SessionError else
  response ← on_db (Database.deleteCategory category);
  mret (BoolResponse response).

(** ** Histories *)

(** A request to one of the routes above.  The remaining routes ([/],
    [/catalogue], [/cart/modes]) only read. *)
Inductive Request : Type :=
| ReqLogin (email password : string)
| ReqCartGet (sessionID : string)
| ReqCartAdd (request : CartAddSchema)
| ReqCheckout (mode sessionID : string)
| ReqNewProduct (sessionID : string) (product : Database.Product)
| ReqUpdateProduct (sessionID : string) (product : Database.Product)
| ReqDeleteProduct (product : Z) (sessionID : string)
| ReqNewCategory (sessionID : string) (category : Database.Category)
| ReqDeleteCategory (category : Z) (sessionID : string).

Definition serve (r : Request) : Py World Response :=
  match r with
  | ReqLogin email password => getSessionID email password
  | ReqCartGet sessionID => cartGet sessionID
  | ReqCartAdd request => cartAdd request
  | ReqCheckout mode sessionID => cartCheckout mode sessionID
  | ReqNewProduct sessionID product => newProduct sessionID product
  | ReqUpdateProduct sessionID product => updateProduct sessionID product
  | ReqDeleteProduct product sessionID => deleteProduct product sessionID
  | ReqNewCategory sessionID category => newCategory sessionID category
  | ReqDeleteCategory category sessionID => deleteCategory category sessionID
  end.

(** The cart mutator [cartAdd] picks by the sign of the quantity. *)
Definition cart_mutation (request : CartAddSchema) : Py Cart.t unit :=
  if bool_decide (0 ≤ req_quantity request)
  then Cart.addItem (req_product request) (req_quantity request)
  else Cart.removeItem (req_product request) (- req_quantity request).

(** Every user token has a cart bound. *)
Definition users_have_carts (w : World) : Prop :=
  ∀ tok, tok ∈ SessionHandler.userTokens (sessions w) →
         is_Some (SessionHandler.carts (sessions w) !! tok).

(** The process at start-up: [SessionHandler.__init__] makes both token
    sets and [carts] empty; the credentials, the payment modes and the two
    tables come from the configuration files. *)
Definition startup (w : World) : Prop :=
  SessionHandler.userTokens (sessions w) = ∅
  ∧ SessionHandler.adminTokens (sessions w) = ∅
  ∧ SessionHandler.carts (sessions w) = ∅.

(** The states the process can be in: after start-up, and after serving
    one more request, whether the route returned or raised. *)
Inductive reachable : World → Prop :=
| reachable_startup w : startup w → reachable w
| reachable_serve w r : reachable w → reachable (state_of (serve r w)).

(** A call to one of the two mutators of a cart. *)
Inductive CartCall : Type :=
| AddItem (id num : Z)
| RemoveItem (id num : Z).

Definition call_count (c : CartCall) : Z :=
  match c with AddItem _ num | RemoveItem _ num => num end.

Definition cart_call (c : CartCall) : Py Cart.t unit :=
  match c with
  | AddItem id num => Cart.addItem id num
  | RemoveItem id num => Cart.removeItem id num
  end.

(** The calls in order, stopping at the first that raises. *)
Fixpoint cart_calls (cs : list CartCall) : Py Cart.t unit :=
  match cs with
  | [] => mret tt
  | c :: rest => cart_call c;; cart_calls rest
  end.

(** A computation that leaves the state as it found it, whatever comes
    out of it. *)
Definition readonly {S A} (m : Py S A) : Prop := ∀ s, state_of (m s) = s.

(** The sum of [price * quantity] over the entries of a cart, each price
    read from the product table; [None] for an ID the table lacks. *)
Definition catalogue_price (d : Database.t) (item : Z) : option Z :=
  Database.price <$> Database.productDB d !! item.

Definition entry_cost (d : Database.t) (entry : Z * Z) : Z :=
  default 0 (catalogue_price d entry.1) * entry.2.

Definition cart_cost (d : Database.t) (cart : Cart.t) : Z :=
  foldr Z.add 0 (entry_cost d <$> dict_items (Cart.products cart)).

(** ** A small shop to run the routes on *)

Definition demo_credentials : list SessionHandler.ValidationSchema :=
  [ {| SessionHandler.email := "a@x.com"; SessionHandler.password := "pw";
       SessionHandler.isAdmin := false |};
    {| SessionHandler.email := "root@x.com"; SessionHandler.password := "toor";
       SessionHandler.isAdmin := true |} ].

Definition demo_modes : SessionHandler.PortalSchema :=
  {| SessionHandler.modes := {[ "upi" := "UPI" ]} |}.

Definition demo_products : gmap Z Database.Product :=
  {[ 42 := {| Database.id := 42; Database.name := "tea";
              Database.category := 1; Database.price := 30 |} ]}.

Definition demo_world : World :=
  {| sessions :=
       {| SessionHandler.userTokens := ∅;
          SessionHandler.adminTokens := ∅;
          SessionHandler.carts := ∅;
          SessionHandler.database := demo_credentials;
          SessionHandler.paymentModes := demo_modes |};
     db := {| Database.productDB := demo_products;
              Database.categoryDB := ∅ |};
     entropy := λ i, default Byte.x00 (Byte.of_nat (i mod 256));
     drawn := 0 |}.

(** The token the first login on [demo_world] draws. *)
Definition demo_token : string := "0001020304050607".

(** [demo_world] after the user has logged in. *)
Definition demo_logged_in : World :=
  state_of (getSessionID "a@x.com" "pw" demo_world).

(** The user puts three units of product 99, which the product table
    does not list, into the cart. *)
Definition demo_unlisted_request : CartAddSchema :=
  {| req_sessionID := demo_token; req_product := 99; req_quantity := 3 |}.

Definition demo_unlisted : World :=
  state_of (cartAdd demo_unlisted_request demo_logged_in).

(** The user asks to take one unit of product 42 out of an empty cart. *)
Definition demo_remove_absent : CartAddSchema :=
  {| req_sessionID := demo_token; req_product := 42; req_quantity := -1 |}.

(** The user puts two units of product 42 into the cart, then asks to
    take five out. *)
Definition demo_add_two : CartAddSchema :=
  {| req_sessionID := demo_token; req_product := 42; req_quantity := 2 |}.

Definition demo_remove_five : CartAddSchema :=
  {| req_sessionID := demo_token; req_product := 42; req_quantity := -5 |}.

Definition demo_two_in_cart : World :=
  state_of (cartAdd demo_add_two demo_logged_in).

(** The user puts three units of the listed product 42 into the cart. *)
Definition demo_add_three : CartAddSchema :=
  {| req_sessionID := demo_token; req_product := 42; req_quantity := 3 |}.

Definition demo_three_in_cart : World :=
  state_of (cartAdd demo_add_three demo_logged_in).

(** A cart holding five units of product 42. *)
Definition demo_cart : Cart.t := {| Cart.products := {[ 42 := 5 ]} |}.

(** ** The rest of the catalogue code *)

(** Every product is filed under its own ID. *)
Definition keyed_by_id (d : Database.t) : Prop :=
  ∀ k p, Database.productDB d !! k = Some p → Database.id p = k.

(** The session ID a request carries in its path or body; the login
    request carries none. *)
Definition request_session (r : Request) : option string :=
  match r with
  | ReqLogin _ _ => None
  | ReqCartGet sessionID => Some sessionID
  | ReqCartAdd request => Some (req_sessionID request)
  | ReqCheckout _ sessionID => Some sessionID
  | ReqNewProduct sessionID _ => Some sessionID
  | ReqUpdateProduct sessionID _ => Some sessionID
  | ReqDeleteProduct _ sessionID => Some sessionID
  | ReqNewCategory sessionID _ => Some sessionID
  | ReqDeleteCategory _ sessionID => Some sessionID
  end.

(** The carts are those of the tokens issued. *)
Definition carts_match_tokens (w : World) : Prop :=
  dom (SessionHandler.carts (sessions w))
  = SessionHandler.userTokens (sessions w)
    ∪ SessionHandler.adminTokens (sessions w).

(** No cart stores a negative quantity. *)
Definition carts_nonnegative (w : World) : Prop :=
  ∀ tok cart p q,
    SessionHandler.carts (sessions w) !! tok = Some cart →
    Cart.products cart !! p = Some q → 0 ≤ q.

(** What [getCatalogue] binds [productCategory] to: a category of the
    table or the string ["unknown"]. *)
Inductive CategoryRef : Type :=
| CategoryInstance (c : Database.Category)
| UnknownStr.

(** [productCategory.name]: a [str] has no attribute [name]. *)
Definition getattr_name (productCategory : CategoryRef) : outcome string :=
  match productCategory with
  | CategoryInstance c => Return (Database.cat_name c)
  | UnknownStr => Raise AttributeError
  end.

(** [CatalogueSchema], the response model local to [getCatalogue]. *)
Record CatalogueSchema : Type :=
  { data : gmap string (list Database.Product) }.

(** The first loop of [getCatalogue]: an empty list under every category
    name. *)
Fixpoint catalogue_keys (categories : list (Z * Database.Category))
    (response : gmap string (list Database.Product))
    : gmap string (list Database.Product) :=
  match categories with
  | [] => response
  | (_, category) :: rest =>
      catalogue_keys rest (dict_setitem (Database.cat_name category) [] response)
  end.

(** The second loop of [getCatalogue]: each product is appended to the
    list under the name of its category. *)
Fixpoint catalogue_fill (self : Database.t)
    (products : list (Z * Database.Product))
    (response : gmap string (list Database.Product))
    : outcome (gmap string (list Database.Product)) :=
  match products with
  | [] => Return response
  | (_, product) :: rest =>
      let productCategory :=
        match Database.categoryDB self !! Database.category product with
        | Some c => CategoryInstance c
        | None => UnknownStr
        end in
      match getattr_name productCategory with
      | Raise e => Raise e
      | Return name =>
          match dict_getitem name response with
          | Raise e => Raise e
          | Return listed =>
              catalogue_fill self rest
                (dict_setitem name (listed ++ [product]) response)
          end
      end
  end.

(** [Database.getCatalogue(self)] *)
Definition getCatalogue (self : Database.t) : outcome CatalogueSchema :=
  let response := dict_setitem "unknown" [] ∅ in
  let response :=
    catalogue_keys (dict_items (Database.categoryDB self)) response in
  match catalogue_fill self (dict_items (Database.productDB self)) response with
  | Return response => Return {| data := response |}
  | Raise e => Raise e
  end.

(** [GET /catalogue] *)
Definition catalogue : Py World CatalogueSchema :=
  read (λ w, getCatalogue (db w)).

(** The name of the category a product is filed under, when the category
    table has it. *)
Definition category_name (self : Database.t) (product : Database.Product)
    : option string :=
  Database.cat_name
    <$> Database.categoryDB self !! Database.category product.

(** The small shop once the admin has logged in after the user, the user
    has put three units of product 42 into the cart, and the admin has
    deleted product 42. *)
Definition demo_admin_token : string := "1011121314151617".

Definition demo_both_logged_in : World :=
  state_of (getSessionID "root@x.com" "toor" demo_logged_in).

Definition demo_cart_filled : World :=
  state_of (cartAdd demo_add_three demo_both_logged_in).

Definition demo_tea : Database.Product :=
  {| Database.id := 42; Database.name := "tea";
     Database.category := 1; Database.price := 30 |}.

Definition demo_coffee : Database.Product :=
  {| Database.id := 43; Database.name := "coffee";
     Database.category := 1; Database.price := 55 |}.

(** A database with one category and two products in it. *)
Definition demo_db : Database.t :=
  {| Database.productDB := {[ 42 := demo_tea; 43 := demo_coffee ]};
     Database.categoryDB :=
       {[ 1 := {| Database.cat_id := 1; Database.cat_name := "drinks" |} ]} |}.

(** The session handler never loses anything: tokens and cart bindings
    stay, the credentials and the payment modes are as loaded. *)
Definition sessions_grow (s s' : SessionHandler.t) : Prop :=
  SessionHandler.userTokens s ⊆ SessionHandler.userTokens s'
  ∧ SessionHandler.adminTokens s ⊆ SessionHandler.adminTokens s'
  ∧ dom (SessionHandler.carts s) ⊆ dom (SessionHandler.carts s')
  ∧ SessionHandler.database s' = SessionHandler.database s
  ∧ SessionHandler.paymentModes s' = SessionHandler.paymentModes s.

(** The products of a list of table entries whose category has the name
    [k], in the order of the list. *)
Definition filed_under (self : Database.t) (k : string)
    (products : list (Z * Database.Product)) : list Database.Product :=
  filter (λ p, category_name self p = Some k) (snd <$> products).

(** The names of the categories of a list of table entries. *)
Definition category_names (categories : list (Z * Database.Category))
    : list string :=
  (λ e, Database.cat_name e.2) <$> categories.

(** The user holds three units of the listed product 42 and then puts
    three units of product 99 into the cart, which the product table does
    not list. *)
Definition demo_mixed : World :=
  state_of (cartAdd demo_unlisted_request demo_three_in_cart).


(** * Properties *)

(** ** The monad *)

Ltac py_unfold :=
  unfold mbind, py_bind, mret, py_ret, gets, read, modify, raise,
    result_of, state_of in *.

Lemma py_bind_run {S A B} (m : Py S A) (k : A → Py S B) s :
  (m ≫= k) s = match m s with
               | (Return a, s') => k a s'
               | (Raise e, s') => (Raise e, s')
               end.
Proof. reflexivity. Qed.

Lemma readonly_ret {S A} (a : A) : readonly (mret a : Py S A).
Proof. intros s. reflexivity. Qed.

Lemma readonly_raise {S A} (e : exn) : readonly (raise e : Py S A).
Proof. intros s. reflexivity. Qed.

Lemma readonly_gets {S A} (f : S → A) : readonly (gets f).
Proof. intros s. reflexivity. Qed.

Lemma readonly_read {S A} (f : S → outcome A) : readonly (read f).
Proof. intros s. reflexivity. Qed.

Lemma readonly_bind {S A B} (m : Py S A) (k : A → Py S B) :
  readonly m → (∀ a, readonly (k a)) → readonly (m ≫= k).
Proof.
  intros Hm Hk s. rewrite py_bind_run.
  specialize (Hm s). unfold state_of in *.
  destruct (m s) as [[a|e] s']; simpl in Hm; subst s'.
  - apply Hk.
  - reflexivity.
Qed.

Lemma readonly_if {S A} (b : bool) (m1 m2 : Py S A) :
  readonly m1 → readonly m2 → readonly (if b then m1 else m2).
Proof. destruct b; auto. Qed.

Create HintDb readonly.
#[local] Hint Resolve readonly_ret readonly_raise readonly_gets readonly_read
  readonly_bind readonly_if : readonly.

(** ** dict *)

Lemma dict_contains_lookup {K} `{Countable K} {V} (k : K) (d : gmap K V) :
  dict_contains k d = match d !! k with Some _ => true | None => false end.
Proof.
  unfold dict_contains. destruct (d !! k) eqn:E.
  - apply bool_decide_eq_true. eauto.
  - apply bool_decide_eq_false. intros [v Hv]. discriminate.
Qed.

(** ** Cart *)

(** What one call of [addItem] does: it never raises, and the entry of
    [id] becomes the old quantity (0 for a new ID) plus [num]. *)
Lemma addItem_run (c : Cart.t) (id num : Z) :
  Cart.addItem id num c =
  (Return tt,
   {| Cart.products :=
        <[id := default 0 (Cart.products c !! id) + num]> (Cart.products c) |}).
Proof.
  unfold Cart.addItem, Cart.has_product, Cart.get_products, Cart.set_products.
  py_unfold. rewrite dict_contains_lookup.
  unfold dict_getitem, dict_setitem.
  destruct (Cart.products c !! id) as [q|] eqn:E; simpl.
  - rewrite E. reflexivity.
  - rewrite lookup_insert_eq. simpl. rewrite insert_insert_eq. reflexivity.
Qed.

(** What one call of [removeItem] does. *)
Lemma removeItem_run (c : Cart.t) (id num : Z) :
  Cart.removeItem id num c =
  match Cart.products c !! id with
  | None => (Raise KeyError, c)
  | Some q =>
      if bool_decide (q < num) then (Raise ValueError, c)
      else (Return tt,
            {| Cart.products :=
                 if bool_decide (q - num = 0) then delete id (Cart.products c)
                 else <[id := q - num]> (Cart.products c) |})
  end.
Proof.
  unfold Cart.removeItem, Cart.has_product, Cart.get_products,
    Cart.set_products, Cart.del_products.
  py_unfold. rewrite dict_contains_lookup.
  unfold dict_getitem, dict_setitem, dict_delitem.
  destruct (Cart.products c !! id) as [q|] eqn:E; simpl; [|reflexivity].
  rewrite E.
  destruct (bool_decide (q < num)); [reflexivity|].
  rewrite E. simpl. rewrite lookup_insert_eq.
  destruct (bool_decide (q - num = 0)); [|reflexivity].
  simpl. rewrite lookup_insert_eq, delete_insert_eq. reflexivity.
Qed.

(** Stored quantities never go below zero: each call with a count of at
    least 0 keeps them so. *)
Lemma cart_call_nonneg (call : CartCall) (c c' : Cart.t) :
  0 ≤ call_count call →
  (∀ k q, Cart.products c !! k = Some q → 0 ≤ q) →
  cart_call call c = (Return tt, c') →
  ∀ k q, Cart.products c' !! k = Some q → 0 ≤ q.
Proof.
  intros Hn Hinv Hrun k q Hk. destruct call as [id num|id num]; simpl in *.
  - rewrite addItem_run in Hrun. inversion Hrun; subst c'; clear Hrun.
    simpl in Hk. destruct (decide (id = k)) as [->|Hne].
    + rewrite lookup_insert_eq in Hk. inversion Hk; subst q.
      destruct (Cart.products c !! k) as [q0|] eqn:E; simpl; [|lia].
      specialize (Hinv k q0 E). lia.
    + rewrite lookup_insert_ne in Hk by done. eauto.
  - rewrite removeItem_run in Hrun.
    destruct (Cart.products c !! id) as [q0|] eqn:E; [|discriminate].
    case_bool_decide as Hlt; [discriminate|].
    inversion Hrun; subst c'; clear Hrun. simpl in Hk.
    case_bool_decide as Hz.
    + apply lookup_delete_Some in Hk as [_ Hk]. eauto.
    + destruct (decide (id = k)) as [->|Hne].
      * rewrite lookup_insert_eq in Hk. inversion Hk; subst q. lia.
      * rewrite lookup_insert_ne in Hk by done. eauto.
Qed.

(** When every [addItem] adds at least one unit, no call leaves an entry
    of quantity zero behind. *)
Lemma cart_call_positive (call : CartCall) (c c' : Cart.t) :
  0 ≤ call_count call →
  (∀ id num, call = AddItem id num → 0 < num) →
  (∀ k q, Cart.products c !! k = Some q → 0 < q) →
  cart_call call c = (Return tt, c') →
  ∀ k q, Cart.products c' !! k = Some q → 0 < q.
Proof.
  intros Hn Hadd Hinv Hrun k q Hk. destruct call as [id num|id num]; simpl in *.
  - specialize (Hadd id num eq_refl).
    rewrite addItem_run in Hrun. inversion Hrun; subst c'; clear Hrun.
    simpl in Hk. destruct (decide (id = k)) as [->|Hne].
    + rewrite lookup_insert_eq in Hk. inversion Hk; subst q.
      destruct (Cart.products c !! k) as [q0|] eqn:E; simpl; [|lia].
      specialize (Hinv k q0 E). lia.
    + rewrite lookup_insert_ne in Hk by done. eauto.
  - rewrite removeItem_run in Hrun.
    destruct (Cart.products c !! id) as [q0|] eqn:E; [|discriminate].
    case_bool_decide as Hlt; [discriminate|].
    inversion Hrun; subst c'; clear Hrun. simpl in Hk.
    case_bool_decide as Hz.
    + apply lookup_delete_Some in Hk as [_ Hk]. eauto.
    + destruct (decide (id = k)) as [->|Hne].
      * rewrite lookup_insert_eq in Hk. inversion Hk; subst q. lia.
      * rewrite lookup_insert_ne in Hk by done. eauto.
Qed.

Lemma cart_calls_cons (call : CartCall) (cs : list CartCall) (c c' : Cart.t) :
  cart_calls (call :: cs) c = (Return tt, c') →
  ∃ c1, cart_call call c = (Return tt, c1) ∧ cart_calls cs c1 = (Return tt, c').
Proof.
  simpl. rewrite py_bind_run.
  destruct (cart_call call c) as [[[]|e] c1]; [eauto|discriminate].
Qed.

(** No sequence of calls with counts of at least 0 on a fresh cart stores
    a negative quantity. *)
Lemma cart_calls_never_negative (cs : list CartCall) (c' : Cart.t) :
  Forall (λ call, 0 ≤ call_count call) cs →
  cart_calls cs Cart.init = (Return tt, c') →
  ∀ k q, Cart.products c' !! k = Some q → 0 ≤ q.
Proof.
  assert (∀ c, (∀ k q, Cart.products c !! k = Some q → 0 ≤ q) →
               Forall (λ call, 0 ≤ call_count call) cs →
               cart_calls cs c = (Return tt, c') →
               ∀ k q, Cart.products c' !! k = Some q → 0 ≤ q) as Hgen.
  { induction cs as [|call cs IH]; intros c Hinv Hall Hrun.
    - inversion Hrun; subst; exact Hinv.
    - apply cart_calls_cons in Hrun as (c1 & H1 & Hrest).
      inversion Hall; subst.
      apply (IH c1); [|assumption..].
      eapply cart_call_nonneg; eassumption. }
  apply Hgen. intros k q Hk. simpl in Hk. rewrite lookup_empty in Hk. discriminate.
Qed.

(** With every [addItem] count at least 1, the stored quantities on a
    cart that started fresh are all strictly positive. *)
Lemma cart_calls_positive (cs : list CartCall) (c' : Cart.t) :
  Forall (λ call, 0 ≤ call_count call) cs →
  Forall (λ call, ∀ id num, call = AddItem id num → 0 < num) cs →
  cart_calls cs Cart.init = (Return tt, c') →
  ∀ k q, Cart.products c' !! k = Some q → 0 < q.
Proof.
  assert (∀ c, (∀ k q, Cart.products c !! k = Some q → 0 < q) →
               Forall (λ call, 0 ≤ call_count call) cs →
               Forall (λ call, ∀ id num, call = AddItem id num → 0 < num) cs →
               cart_calls cs c = (Return tt, c') →
               ∀ k q, Cart.products c' !! k = Some q → 0 < q) as Hgen.
  { induction cs as [|call cs IH]; intros c Hinv Hall Hadd Hrun.
    - inversion Hrun; subst; exact Hinv.
    - apply cart_calls_cons in Hrun as (c1 & H1 & Hrest).
      inversion Hall; inversion Hadd; subst.
      apply (IH c1); [|assumption..].
      eapply cart_call_positive; eassumption. }
  apply Hgen. intros k q Hk. simpl in Hk. rewrite lookup_empty in Hk. discriminate.
Qed.

(** C1.  The claim: after any sequence of [addItem] calls with counts of
    at least 0 and successful [removeItem] calls on a fresh cart, no entry
    has a zero or negative quantity.  The code at the failing input: the
    single call [addItem(7, 0)] on a fresh cart has a count of at least 0,
    returns, and leaves the entry [7: 0] in [products]. *)
Theorem addItem_zero_count_stores_zero_entry :
  Forall (λ call, 0 ≤ call_count call) [AddItem 7 0]
  ∧ ∃ c, cart_calls [AddItem 7 0] Cart.init = (Return tt, c)
         ∧ Cart.products c !! 7 = Some 0.
Proof.
  split.
  - repeat constructor. simpl. lia.
  - eexists. split.
    + simpl. rewrite py_bind_run, addItem_run. reflexivity.
    + simpl. rewrite lookup_insert_eq, lookup_empty. reflexivity.
Qed.

(** C5.  For a count [n] of at least 0, [removeItem(id, n)] raises
    [KeyError] exactly when [id] is absent, raises [ValueError] exactly
    when [id] is present with a stored quantity below [n], leaves the cart
    as it was whenever it raises, and otherwise returns with the stored
    quantity lowered by [n], the entry deleted exactly when that leaves 0. *)
Theorem removeItem_outcomes (c : Cart.t) (id n : Z) :
  0 ≤ n →
  (result_of (Cart.removeItem id n c) = Raise KeyError
   ↔ Cart.products c !! id = None)
  ∧ (result_of (Cart.removeItem id n c) = Raise ValueError
     ↔ ∃ q, Cart.products c !! id = Some q ∧ q < n)
  ∧ (∀ e, result_of (Cart.removeItem id n c) = Raise e
          → state_of (Cart.removeItem id n c) = c)
  ∧ (result_of (Cart.removeItem id n c) = Return tt
     ↔ ∃ q, Cart.products c !! id = Some q ∧ n ≤ q)
  ∧ (∀ q, Cart.products c !! id = Some q → n ≤ q →
          Cart.products (state_of (Cart.removeItem id n c)) =
          if decide (q - n = 0) then delete id (Cart.products c)
          else <[id := q - n]> (Cart.products c)).
Proof.
  intros _. rewrite removeItem_run. unfold result_of, state_of.
  destruct (Cart.products c !! id) as [q|] eqn:E.
  - case_bool_decide as Hlt; simpl.
    + repeat split; try done.
      * intros _. exists q. done.
      * intros (q' & Hq' & Hle). inversion Hq'; subst. lia.
      * intros q' Hq' Hle. inversion Hq'; subst. lia.
    + repeat split; try done.
      * intros (q' & Hq' & Hlt'). inversion Hq'; subst. lia.
      * intros _. exists q. split; [done|lia].
      * intros q' Hq' Hle. inversion Hq'; subst.
        case_bool_decide; case_decide; done.
  - simpl. repeat split; try done.
    + intros (q & Hq & _). discriminate.
    + intros (q & Hq & _). discriminate.
Qed.

(** C8.  When [removeItem(p, n)] with [n] at least 0 returns, [addItem(p,
    n)] right after it returns too and brings [products] back to what it
    was before the removal, also when the removal deleted the entry of
    [p]. *)
Theorem addItem_after_removeItem (c c1 : Cart.t) (p n : Z) :
  0 ≤ n →
  Cart.removeItem p n c = (Return tt, c1) →
  Cart.addItem p n c1 = (Return tt, c).
Proof.
  intros _ Hrm. rewrite removeItem_run in Hrm.
  destruct (Cart.products c !! p) as [q|] eqn:E; [|discriminate].
  case_bool_decide as Hlt; [discriminate|].
  inversion Hrm; subst c1; clear Hrm.
  rewrite addItem_run. simpl. f_equal. destruct c as [m]. simpl in *. f_equal.
  case_bool_decide as Hz.
  - rewrite lookup_delete_eq. simpl. rewrite insert_delete_eq.
    apply insert_id. rewrite E. f_equal. lia.
  - rewrite lookup_insert_eq. simpl. rewrite insert_insert_eq.
    apply insert_id. rewrite E. f_equal. lia.
Qed.

(** ** login *)

Lemma hex_length (bs : list Byte.byte) :
  String.length (hex bs) = (2 * length bs)%nat.
Proof. induction bs as [|b bs IH]; simpl; [reflexivity|]. rewrite IH. lia. Qed.

Lemma tape_bytes_length (tape : nat → Byte.byte) (from n : nat) :
  length (tape_bytes tape from n) = n.
Proof. unfold tape_bytes. rewrite length_fmap. apply length_seq. Qed.

(** A token is sixteen hexadecimal digits, so never the empty string. *)
Lemma token_nonempty (tape : nat → Byte.byte) (from : nat) :
  hex (tape_bytes tape from 8) ≠ "".
Proof.
  intros Heq. apply (f_equal String.length) in Heq.
  rewrite hex_length, tape_bytes_length in Heq. discriminate.
Qed.

Lemma advance_advance (a b : nat) (w : World) :
  advance b (advance a w) = advance (a + b) w.
Proof. unfold advance. simpl. f_equal. lia. Qed.

Lemma advance_0 (w : World) : advance 0 w = w.
Proof. unfold advance. destruct w; simpl. f_equal. lia. Qed.

(** One turn of the scan. *)
Lemma login_scan_cons cred rest email password (w : World) :
  login_scan (cred :: rest) email password w =
  if cred_matches cred email password
  then (Return (hex (tape_bytes (entropy w) (drawn w) 8)),
        with_sessions
          (if SessionHandler.isAdmin cred
           then SessionHandler.add_adminToken
                  (hex (tape_bytes (entropy w) (drawn w) 8))
           else SessionHandler.add_userToken
                  (hex (tape_bytes (entropy w) (drawn w) 8)))
          (advance 8 w))
  else login_scan rest email password (advance 8 w).
Proof.
  cbn [login_scan]. rewrite py_bind_run. unfold urandom.
  destruct (cred_matches cred email password); [|reflexivity].
  destruct (SessionHandler.isAdmin cred); reflexivity.
Qed.

(** The scan over records none of which matches: it returns the empty
    string, and all it did was draw eight bytes for each record. *)
Lemma login_scan_no_match credentials email password (w : World) :
  Forall (λ c, cred_matches c email password = false) credentials →
  login_scan credentials email password w =
  (Return "", advance (8 * length credentials) w).
Proof.
  revert w. induction credentials as [|cred rest IH]; intros w Hall.
  - cbn [login_scan length]. rewrite Nat.mul_0_r, advance_0. reflexivity.
  - inversion Hall as [|? ? Hc Hrest]; subst.
    rewrite login_scan_cons, Hc, IH, advance_advance by assumption.
    do 2 f_equal. cbn [length]. lia.
Qed.

(** The scan up to its first matching record: the token is the draw made
    on that record's turn, and it goes to the set the record's flag names. *)
Lemma login_scan_first_match pre cred post email password (w : World) :
  Forall (λ c, cred_matches c email password = false) pre →
  cred_matches cred email password = true →
  login_scan (pre ++ cred :: post) email password w =
  (Return (hex (tape_bytes (entropy w) (drawn w + 8 * length pre) 8)),
   with_sessions
     (if SessionHandler.isAdmin cred
      then SessionHandler.add_adminToken
             (hex (tape_bytes (entropy w) (drawn w + 8 * length pre) 8))
      else SessionHandler.add_userToken
             (hex (tape_bytes (entropy w) (drawn w + 8 * length pre) 8)))
     (advance (8 * length pre + 8) w)).
Proof.
  revert w. induction pre as [|c pre IH]; intros w Hpre Hcred.
  - cbn [app length]. rewrite login_scan_cons, Hcred.
    rewrite Nat.mul_0_r, Nat.add_0_r. reflexivity.
  - inversion Hpre as [|? ? Hc Hrest]; subst.
    cbn [app]. rewrite login_scan_cons, Hc, IH by assumption.
    rewrite advance_advance. cbn [advance drawn entropy length].
    replace (drawn w + 8 + 8 * length pre)%nat
      with (drawn w + 8 * S (length pre))%nat by lia.
    replace (8 + (8 * length pre + 8))%nat
      with (8 * S (length pre) + 8)%nat by lia.
    reflexivity.
Qed.

(** Every credential list either has no matching record or splits at its
    first one. *)
Lemma first_match_split credentials email password :
  Forall (λ c, cred_matches c email password = false) credentials
  ∨ ∃ pre cred post,
      credentials = pre ++ cred :: post
      ∧ Forall (λ c, cred_matches c email password = false) pre
      ∧ cred_matches cred email password = true.
Proof.
  induction credentials as [|c rest IH].
  - left. constructor.
  - destruct (cred_matches c email password) eqn:Hc.
    + right. exists [], c, rest. repeat split; [constructor|assumption].
    + destruct IH as [Hnone|(pre & cred & post & -> & Hpre & Hcred)].
      * left. constructor; assumption.
      * right. exists (c :: pre), cred, post.
        repeat split; [constructor; assumption|assumption].
Qed.

Lemma login_run (email password : string) (w : World) :
  login email password w =
  login_scan (SessionHandler.database (sessions w)) email password w.
Proof. reflexivity. Qed.

(** C9.  When [login] returns the empty string, the session handler is as
    it was before the call: no token has been added to either set, though
    eight bytes were drawn for each record visited. *)
Theorem login_empty_leaves_sessions (w : World) (email password : string) :
  result_of (login email password w) = Return "" →
  sessions (state_of (login email password w)) = sessions w
  ∧ drawn (state_of (login email password w)) =
    (drawn w + 8 * length (SessionHandler.database (sessions w)))%nat.
Proof.
  rewrite login_run.
  destruct (first_match_split (SessionHandler.database (sessions w))
              email password)
    as [Hnone|(pre & cred & post & Hdb & Hpre & Hcred)].
  - intros _. rewrite login_scan_no_match by assumption. split; reflexivity.
  - rewrite Hdb, login_scan_first_match by assumption.
    unfold result_of. cbn [fst]. intros Heq. exfalso.
    apply (token_nonempty (entropy w) (drawn w + 8 * length pre)).
    congruence.
Qed.

(** ** cartGet *)

Lemma cartGet_run (sessionID : string) (w : World) :
  cartGet sessionID w =
  (Return match SessionHandler.carts (sessions w) !! sessionID with
          | Some cart => CartResponse (Cart.getCart cart)
          | None => UserNotFound
          end, w).
Proof.
  unfold cartGet, has_cart, cart_of. py_unfold.
  rewrite dict_contains_lookup. unfold dict_getitem.
  destruct (SessionHandler.carts (sessions w) !! sessionID) eqn:E;
    cbn; rewrite ?E; reflexivity.
Qed.

(** What [getSessionID] leaves in [carts] when it answers with a session
    ID: a fresh cart under that ID. *)
Lemma getSessionID_binds_cart (email password tok : string) (w : World) :
  result_of (getSessionID email password w) = Return (SessionID tok) →
  SessionHandler.carts (sessions (state_of (getSessionID email password w)))
    !! tok = Some Cart.init.
Proof.
  unfold getSessionID. rewrite py_bind_run.
  destruct (login email password w) as [[sessionID|e] w1]; [|discriminate].
  case_bool_decide; [discriminate|].
  py_unfold. simpl. intros Heq. inversion Heq; subst.
  unfold dict_setitem. apply lookup_insert_eq.
Qed.

(** C10.  [cartGet] looks at [carts] alone, never at the two token sets:
    a session ID with a cart bound gets that cart's snapshot, whichever
    role set holds it, and the answer is "User Not Found" exactly when no
    cart is bound; [getSessionID] binds a fresh cart for every login that
    succeeds, admin logins included. *)
Theorem cartGet_checks_no_role (w : World) (sessionID : string) :
  (∀ cart, SessionHandler.carts (sessions w) !! sessionID = Some cart →
           cartGet sessionID w = (Return (CartResponse (Cart.getCart cart)), w))
  ∧ (result_of (cartGet sessionID w) = Return UserNotFound
     ↔ SessionHandler.carts (sessions w) !! sessionID = None)
  ∧ (∀ email password tok,
       result_of (getSessionID email password w) = Return (SessionID tok) →
       SessionHandler.carts
         (sessions (state_of (getSessionID email password w))) !! tok
       = Some Cart.init).
Proof.
  rewrite cartGet_run. split; [|split].
  - intros cart ->. reflexivity.
  - unfold result_of. cbn [fst].
    destruct (SessionHandler.carts (sessions w) !! sessionID).
    + split; discriminate.
    + split; reflexivity.
  - intros email password tok. apply getSessionID_binds_cart.
Qed.

(** ** cartCheckout *)

Lemma checkout_total_readonly (entries : list (Z * Z)) (netTotal : Z) :
  readonly (checkout_total entries netTotal).
Proof.
  revert netTotal. induction entries as [|[item qty] rest IH]; intros netTotal.
  - apply readonly_ret.
  - cbn [checkout_total]. auto with readonly.
Qed.

Lemma cartCheckout_readonly (mode sessionID : string) :
  readonly (cartCheckout mode sessionID).
Proof.
  unfold cartCheckout, is_user, cart_of.
  apply readonly_bind; [auto with readonly|]. intros user.
  apply readonly_if; [auto with readonly|].
  apply readonly_bind; [auto with readonly|]. intros known.
  apply readonly_if; [auto with readonly|].
  apply readonly_bind; [auto with readonly|]. intros cart.
  apply readonly_bind; [apply checkout_total_readonly|]. intros netTotal.
  auto with readonly.
Qed.

(** One turn of the loop on an entry the product table resolves. *)
Lemma checkout_total_listed item qty rest netTotal (w : World) p :
  Database.productDB (db w) !! item = Some p →
  checkout_total ((item, qty) :: rest) netTotal w =
  checkout_total rest (netTotal + Database.price p * qty) w.
Proof.
  intros Hp. cbn [checkout_total]. py_unfold.
  unfold Database.getProduct. rewrite Hp. reflexivity.
Qed.

(** One turn of the loop on an entry the product table lacks. *)
Lemma checkout_total_unlisted item qty rest netTotal (w : World) :
  Database.productDB (db w) !! item = None →
  checkout_total ((item, qty) :: rest) netTotal w = (Raise AttributeError, w).
Proof.
  intros Hp. cbn [checkout_total]. py_unfold.
  unfold Database.getProduct. rewrite Hp. reflexivity.
Qed.

(** With every entry's product in the table, the loop returns the total
    it started from plus the sum of price times quantity. *)
Lemma checkout_total_sum (entries : list (Z * Z)) (netTotal : Z) (w : World) :
  Forall (λ e, is_Some (Database.productDB (db w) !! e.1)) entries →
  checkout_total entries netTotal w =
  (Return (netTotal + foldr Z.add 0 (entry_cost (db w) <$> entries)), w).
Proof.
  revert netTotal. induction entries as [|[item qty] rest IH];
    intros netTotal Hall.
  - cbn [checkout_total fmap list_fmap foldr]. rewrite Z.add_0_r. reflexivity.
  - inversion Hall as [|? ? [p Hp] Hrest]; subst. simpl in Hp.
    rewrite (checkout_total_listed _ _ _ _ _ p Hp), IH by assumption.
    cbn [fmap list_fmap foldr].
    assert (entry_cost (db w) (item, qty) = Database.price p * qty) as ->.
    { unfold entry_cost, catalogue_price. cbn [fst snd]. rewrite Hp. reflexivity. }
    rewrite Z.add_assoc. reflexivity.
Qed.

(** With some entry's product missing from the table, the loop raises. *)
Lemma checkout_total_raises (entries : list (Z * Z)) (netTotal : Z) (w : World) :
  Exists (λ e, Database.productDB (db w) !! e.1 = None) entries →
  checkout_total entries netTotal w = (Raise AttributeError, w).
Proof.
  revert netTotal. induction entries as [|[item qty] rest IH];
    intros netTotal Hex.
  - inversion Hex.
  - destruct (Database.productDB (db w) !! item) as [p|] eqn:Hp.
    + rewrite (checkout_total_listed _ _ _ _ _ p Hp). apply IH.
      inversion Hex as [? ? Hhd|? ? Htl]; subst; [|assumption].
      simpl in Hhd. congruence.
    + apply checkout_total_unlisted. assumption.
Qed.

(** The route once the two guards have passed. *)
Lemma cartCheckout_run (mode sessionID portal : string) (cart : Cart.t)
    (w : World) :
  sessionID ∈ SessionHandler.userTokens (sessions w) →
  SessionHandler.carts (sessions w) !! sessionID = Some cart →
  SessionHandler.modes (SessionHandler.paymentModes (sessions w)) !! mode
    = Some portal →
  cartCheckout mode sessionID w =
  match checkout_total (dict_items (Cart.products cart)) 0 w with
  | (Return netTotal, w') =>
      (Return (Message (if bool_decide (netTotal = 0) then nothing_payable
                        else payment_message portal netTotal)), w')
  | (Raise e, w') => (Raise e, w')
  end.
Proof.
  intros Huser Hcart Hmode.
  unfold cartCheckout, is_user, cart_of. py_unfold.
  rewrite bool_decide_eq_true_2 by assumption. cbn [negb].
  rewrite dict_contains_lookup, Hmode. cbn [negb].
  unfold dict_getitem. rewrite Hcart.
  pose proof (checkout_total_readonly (dict_items (Cart.products cart)) 0 w)
    as Hro. unfold state_of in Hro.
  destruct (checkout_total (dict_items (Cart.products cart)) 0 w)
    as [[netTotal|e] w']; cbn [snd] in Hro; subst w'; [|reflexivity].
  case_bool_decide; [reflexivity|]. rewrite Hmode. reflexivity.
Qed.

Lemma payment_message_distinct (portal : string) (netTotal : Z) :
  payment_message portal netTotal ≠ nothing_payable.
Proof. unfold payment_message, nothing_payable. cbn. discriminate. Qed.

(** The total the loop computes for a cart whose products are all in the
    table is the sum, over the cart's entries, of price times quantity. *)
Lemma checkout_total_listed_cart (cart : Cart.t) (w : World) :
  (∀ item qty, Cart.products cart !! item = Some qty →
               is_Some (Database.productDB (db w) !! item)) →
  checkout_total (dict_items (Cart.products cart)) 0 w =
  (Return (cart_cost (db w) cart), w).
Proof.
  intros Hlisted. rewrite checkout_total_sum.
  - reflexivity.
  - apply Forall_forall. intros [item qty] Hin.
    apply elem_of_map_to_list in Hin. eapply Hlisted, Hin.
Qed.

(** The loop raises as soon as the cart holds a product the table lacks. *)
Lemma checkout_total_unlisted_cart (cart : Cart.t) (w : World) item qty :
  Cart.products cart !! item = Some qty →
  Database.productDB (db w) !! item = None →
  checkout_total (dict_items (Cart.products cart)) 0 w =
  (Raise AttributeError, w).
Proof.
  intros Hitem Hnone. apply checkout_total_raises.
  apply Exists_exists. exists (item, qty). split; [|exact Hnone].
  apply elem_of_map_to_list. exact Hitem.
Qed.

(** Checkout for a user whose cart holds a product the table lacks: the
    route raises [AttributeError]. *)
Lemma cartCheckout_unlisted_raises (mode sessionID portal : string)
    (cart : Cart.t) (w : World) item qty :
  sessionID ∈ SessionHandler.userTokens (sessions w) →
  SessionHandler.carts (sessions w) !! sessionID = Some cart →
  SessionHandler.modes (SessionHandler.paymentModes (sessions w)) !! mode
    = Some portal →
  Cart.products cart !! item = Some qty →
  Database.productDB (db w) !! item = None →
  cartCheckout mode sessionID w = (Raise AttributeError, w).
Proof.
  intros Huser Hcart Hmode Hitem Hnone.
  rewrite (cartCheckout_run _ _ _ _ _ Huser Hcart Hmode).
  rewrite (checkout_total_unlisted_cart _ _ _ _ Hitem Hnone). reflexivity.
Qed.


Lemma demo_logged_in_reachable : reachable demo_logged_in.
Proof.
  apply (reachable_serve demo_world (ReqLogin "a@x.com" "pw")).
  apply reachable_startup. repeat split.
Qed.

Lemma demo_unlisted_reachable : reachable demo_unlisted.
Proof.
  apply (reachable_serve demo_logged_in (ReqCartAdd demo_unlisted_request)).
  apply demo_logged_in_reachable.
Qed.

(** C3.  The claim: checkout adds up price times quantity over the cart,
    and a product ID without a catalogue entry does not crash it and
    counts with price 0.  The code at the failing input: a user logs in,
    puts three units of product 99 into the cart, which the product table
    does not list, and checks out with a configured mode.  [getProduct]
    hands back the model class and reading its [price] raises
    [AttributeError], which leaves the route. *)
Theorem cartCheckout_unlisted_product_raises :
  reachable demo_unlisted
  ∧ demo_token ∈ SessionHandler.userTokens (sessions demo_unlisted)
  ∧ SessionHandler.carts (sessions demo_unlisted) !! demo_token
    = Some {| Cart.products := {[ 99 := 3 ]} |}
  ∧ SessionHandler.modes (SessionHandler.paymentModes (sessions demo_unlisted))
      !! "upi" = Some "UPI"
  ∧ Database.getProduct 99 (db demo_unlisted) = Database.ProductClass
  ∧ cartCheckout "upi" demo_token demo_unlisted
    = (Raise AttributeError, demo_unlisted).
Proof.
  assert (demo_token ∈ SessionHandler.userTokens (sessions demo_unlisted))
    as Huser by (vm_compute; set_solver).
  assert (SessionHandler.carts (sessions demo_unlisted) !! demo_token
          = Some {| Cart.products := {[ 99 := 3 ]} |}) as Hcart
    by (vm_compute; reflexivity).
  assert (SessionHandler.modes
            (SessionHandler.paymentModes (sessions demo_unlisted)) !! "upi"
          = Some "UPI") as Hmode by (vm_compute; reflexivity).
  assert (Database.productDB (db demo_unlisted) !! 99 = None) as Hnone
    by (vm_compute; reflexivity).
  split; [apply demo_unlisted_reachable|].
  split; [exact Huser|]. split; [exact Hcart|]. split; [exact Hmode|].
  split.
  - unfold Database.getProduct. rewrite Hnone. reflexivity.
  - apply (cartCheckout_unlisted_raises _ _ _ _ _ 99 3 Huser Hcart Hmode).
    + apply lookup_singleton_eq.
    + exact Hnone.
Qed.

(** For a user token with a cart bound and a configured mode, a total
    the loop computes decides the outcome: "No amount payable!" exactly
    when it is 0, and otherwise the confirmation, which spells out the
    mode's display name and the total in decimal.  An empty cart gives "No
    amount payable!", and a cart of listed products does compute a total. *)
Lemma cartCheckout_outcome (w : World) (mode sessionID portal : string)
    (cart : Cart.t) :
  sessionID ∈ SessionHandler.userTokens (sessions w) →
  SessionHandler.carts (sessions w) !! sessionID = Some cart →
  SessionHandler.modes (SessionHandler.paymentModes (sessions w)) !! mode
    = Some portal →
  (∀ netTotal,
     result_of (checkout_total (dict_items (Cart.products cart)) 0 w)
       = Return netTotal →
     (netTotal = 0 →
      result_of (cartCheckout mode sessionID w)
        = Return (Message "No amount payable!"))
     ∧ (netTotal ≠ 0 →
        result_of (cartCheckout mode sessionID w)
          = Return (Message
                      ("You will be shortly redirected to the portal for "
                       +:+ portal +:+ " to make a payment of Rs. "
                       +:+ pretty netTotal)))
     ∧ (result_of (cartCheckout mode sessionID w)
          = Return (Message "No amount payable!") ↔ netTotal = 0))
  ∧ (Cart.products cart = ∅ →
     result_of (cartCheckout mode sessionID w)
       = Return (Message "No amount payable!"))
  ∧ ((∀ item qty, Cart.products cart !! item = Some qty →
                  is_Some (Database.productDB (db w) !! item)) →
     result_of (checkout_total (dict_items (Cart.products cart)) 0 w)
       = Return (cart_cost (db w) cart)).
Proof.
  intros Huser Hcart Hmode.
  rewrite (cartCheckout_run _ _ _ _ _ Huser Hcart Hmode).
  split; [|split].
  - intros netTotal Htotal. unfold result_of in *.
    destruct (checkout_total (dict_items (Cart.products cart)) 0 w)
      as [[t|e] w']; cbn [fst] in *; [|discriminate].
    inversion Htotal; subst t.
    pose proof (payment_message_distinct portal netTotal) as Hdistinct.
    unfold payment_message, nothing_payable in *.
    case_bool_decide as Hz.
    + repeat split; try done.
    + split; [done|]. split; [done|]. split; [|done].
      intros Heq. exfalso. apply Hdistinct. congruence.
  - intros Hempty. unfold dict_items. rewrite Hempty, map_to_list_empty.
    reflexivity.
  - intros Hlisted. rewrite (checkout_total_listed_cart _ _ Hlisted).
    reflexivity.
Qed.

(** C4.  The claim: for every user token with a cart bound and every
    configured mode, checkout returns "nothing payable" exactly when the
    total is 0 and otherwise a confirmation with the total and the mode's
    display name.  The code at the failing input: a user holds three units
    of the listed product 42 and three of product 99, which the product
    table does not list, and checks out with the configured mode "upi".
    The loop raises [AttributeError] when it reads the price of product
    99, so the route returns no outcome at all, neither of the two. *)
Theorem cartCheckout_unlisted_gives_no_outcome :
  reachable demo_mixed
  ∧ demo_token ∈ SessionHandler.userTokens (sessions demo_mixed)
  ∧ SessionHandler.carts (sessions demo_mixed) !! demo_token
    = Some {| Cart.products := {[ 42 := 3; 99 := 3 ]} |}
  ∧ SessionHandler.modes (SessionHandler.paymentModes (sessions demo_mixed))
      !! "upi" = Some "UPI"
  ∧ Database.getProduct 42 (db demo_mixed)
    = Database.ProductInstance
        {| Database.id := 42; Database.name := "tea";
           Database.category := 1; Database.price := 30 |}
  ∧ Database.getProduct 99 (db demo_mixed) = Database.ProductClass
  ∧ cartCheckout "upi" demo_token demo_mixed
    = (Raise AttributeError, demo_mixed)
  ∧ (∀ response,
       result_of (cartCheckout "upi" demo_token demo_mixed) ≠ Return response).
Proof.
  assert (demo_token ∈ SessionHandler.userTokens (sessions demo_mixed))
    as Huser by (vm_compute; set_solver).
  assert (SessionHandler.carts (sessions demo_mixed) !! demo_token
          = Some {| Cart.products := {[ 42 := 3; 99 := 3 ]} |}) as Hcart
    by (vm_compute; reflexivity).
  assert (SessionHandler.modes
            (SessionHandler.paymentModes (sessions demo_mixed)) !! "upi"
          = Some "UPI") as Hmode by (vm_compute; reflexivity).
  assert (Database.productDB (db demo_mixed) !! 99 = None) as Hnone
    by (vm_compute; reflexivity).
  assert (cartCheckout "upi" demo_token demo_mixed
          = (Raise AttributeError, demo_mixed)) as Hraise.
  { apply (cartCheckout_unlisted_raises _ _ _ _ _ 99 3 Huser Hcart Hmode).
    - vm_compute. reflexivity.
    - exact Hnone. }
  split.
  { apply (reachable_serve demo_three_in_cart (ReqCartAdd demo_unlisted_request)).
    apply (reachable_serve demo_logged_in (ReqCartAdd demo_add_three)).
    apply demo_logged_in_reachable. }
  split; [exact Huser|]. split; [exact Hcart|]. split; [exact Hmode|].
  split; [vm_compute; reflexivity|].
  split; [unfold Database.getProduct; rewrite Hnone; reflexivity|].
  split; [exact Hraise|].
  intros response. rewrite Hraise. discriminate.
Qed.

(** C7.  Whatever its inputs and whatever comes out of it, [cartCheckout]
    leaves the whole state as it found it: the carts, both token sets, the
    token-to-cart dict, the tables and the payment modes. *)
Theorem cartCheckout_mutates_nothing (w : World) (mode sessionID : string) :
  state_of (cartCheckout mode sessionID w) = w.
Proof. apply cartCheckout_readonly. Qed.

(** ** cartAdd *)

Lemma on_cart_run {A} (sessionID : string) (method : Py Cart.t A)
    (cart : Cart.t) (w : World) :
  SessionHandler.carts (sessions w) !! sessionID = Some cart →
  on_cart sessionID method w =
  (result_of (method cart), bind_cart sessionID (state_of (method cart)) w).
Proof.
  intros Hcart. unfold on_cart, dict_getitem. rewrite Hcart.
  destruct (method cart); reflexivity.
Qed.

Lemma bind_cart_lookup (sessionID : string) (cart : Cart.t) (w : World) :
  SessionHandler.carts (sessions (bind_cart sessionID cart w)) !! sessionID
  = Some cart.
Proof. cbn. unfold dict_setitem. apply lookup_insert_eq. Qed.

(** The route for a token that is not a user token. *)
Lemma cartAdd_not_user (request : CartAddSchema) (w : World) :
  req_sessionID request ∉ SessionHandler.userTokens (sessions w) →
  cartAdd request w = (Return UserNotFound, w).
Proof.
  intros Hnot. unfold cartAdd, is_user. py_unfold.
  rewrite bool_decide_eq_false_2 by assumption. reflexivity.
Qed.

(** The route for a user token with a cart bound: it answers with the
    snapshot when the cart's mutator returns, and what the mutator raises
    leaves the route. *)
Lemma cartAdd_run (request : CartAddSchema) (cart : Cart.t) (w : World) :
  req_sessionID request ∈ SessionHandler.userTokens (sessions w) →
  SessionHandler.carts (sessions w) !! req_sessionID request = Some cart →
  cartAdd request w =
  (match result_of (cart_mutation request cart) with
   | Return _ =>
       Return (CartResponse
                 (Cart.getCart (state_of (cart_mutation request cart))))
   | Raise e => Raise e
   end,
   bind_cart (req_sessionID request)
     (state_of (cart_mutation request cart)) w).
Proof.
  intros Huser Hcart. unfold cartAdd, is_user, cart_mutation, cart_of.
  rewrite py_bind_run. unfold gets at 1.
  rewrite bool_decide_eq_true_2 by assumption. cbn [negb].
  rewrite py_bind_run.
  destruct (bool_decide (0 ≤ req_quantity request));
    rewrite (on_cart_run _ _ _ _ Hcart);
    match goal with |- context [result_of ?m] => destruct m as [[[]|e] cart'] end;
    cbn [result_of state_of fst snd]; try reflexivity;
    rewrite py_bind_run; unfold read, dict_getitem;
    rewrite bind_cart_lookup; reflexivity.
Qed.

(** The route for a user token with no cart bound. *)
Lemma cartAdd_no_cart (request : CartAddSchema) (w : World) :
  req_sessionID request ∈ SessionHandler.userTokens (sessions w) →
  SessionHandler.carts (sessions w) !! req_sessionID request = None →
  cartAdd request w = (Raise KeyError, w).
Proof.
  intros Huser Hcart. unfold cartAdd, is_user.
  rewrite py_bind_run. unfold gets at 1.
  rewrite bool_decide_eq_true_2 by assumption. cbn [negb].
  rewrite py_bind_run.
  destruct (bool_decide (0 ≤ req_quantity request));
    unfold on_cart, dict_getitem; rewrite Hcart; reflexivity.
Qed.

(** ** Reachable states *)

Lemma users_have_carts_same_sessions (w w' : World) :
  sessions w' = sessions w → users_have_carts w → users_have_carts w'.
Proof. unfold users_have_carts. intros ->. auto. Qed.

Lemma users_have_carts_bind_cart (sessionID : string) (cart : Cart.t)
    (w : World) :
  users_have_carts w → users_have_carts (bind_cart sessionID cart w).
Proof.
  intros Hinv tok Htok. cbn in *. unfold dict_setitem.
  apply lookup_insert_is_Some'. right. apply Hinv, Htok.
Qed.

Lemma on_db_sessions {A} (method : Py Database.t A) (w : World) :
  sessions (state_of (on_db method w)) = sessions w.
Proof. unfold on_db. destruct (method (db w)). reflexivity. Qed.

(** A route that is guarded by [is_admin] and then only calls into [db]
    leaves [sessions] alone. *)
Lemma admin_route_sessions {A} (sessionID : string)
    (method : Py Database.t A) (k : A → Py World Response) (w : World) :
  (∀ a, readonly (k a)) →
  sessions (state_of
    ((admin ← is_admin sessionID;
      if negb admin then mret SessionError else on_db method ≫= k) w))
  = sessions w.
Proof.
  intros Hk. unfold is_admin. rewrite py_bind_run. unfold gets at 1.
  destruct (negb _); [reflexivity|].
  rewrite py_bind_run. pose proof (on_db_sessions method w) as Hs.
  unfold state_of in *.
  destruct (on_db method w) as [[a|e] w1]; cbn [snd] in *; [|exact Hs].
  specialize (Hk a w1). unfold state_of in Hk. rewrite Hk. exact Hs.
Qed.

Lemma getSessionID_run (email password : string) (w : World) :
  getSessionID email password w =
  match login email password w with
  | (Return sessionID, w1) =>
      if bool_decide (sessionID = "") then (Return AuthenticationError, w1)
      else (Return (SessionID sessionID), bind_cart sessionID Cart.init w1)
  | (Raise e, w1) => (Raise e, w1)
  end.
Proof.
  unfold getSessionID. rewrite py_bind_run.
  destruct (login email password w) as [[sessionID|e] w1]; [|reflexivity].
  destruct (bool_decide (sessionID = "")); reflexivity.
Qed.

Lemma getSessionID_keeps_users_have_carts (email password : string)
    (w : World) :
  users_have_carts w →
  users_have_carts (state_of (getSessionID email password w)).
Proof.
  intros Hinv. rewrite getSessionID_run, login_run.
  destruct (first_match_split (SessionHandler.database (sessions w))
              email password)
    as [Hnone|(pre & cred & post & Hdb & Hpre & Hcred)].
  - rewrite login_scan_no_match by assumption.
    rewrite bool_decide_eq_true_2 by reflexivity.
    eapply users_have_carts_same_sessions; [|exact Hinv]. reflexivity.
  - rewrite Hdb, login_scan_first_match by assumption.
    rewrite bool_decide_eq_false_2 by apply token_nonempty.
    unfold state_of. cbn [snd].
    intros tok Htok. cbn in Htok |- *. unfold dict_setitem.
    apply lookup_insert_is_Some'.
    destruct (SessionHandler.isAdmin cred); cbn in Htok |- *.
    + right. apply Hinv, Htok.
    + apply elem_of_union in Htok as [Htok|Htok].
      * left. apply elem_of_singleton in Htok. congruence.
      * right. apply Hinv, Htok.
Qed.

Lemma cartAdd_keeps_users_have_carts (request : CartAddSchema) (w : World) :
  users_have_carts w → users_have_carts (state_of (cartAdd request w)).
Proof.
  intros Hinv.
  destruct (decide (req_sessionID request
                    ∈ SessionHandler.userTokens (sessions w))) as [Huser|Hnot].
  - destruct (Hinv _ Huser) as [cart Hcart].
    rewrite (cartAdd_run _ _ _ Huser Hcart). unfold state_of at 1. cbn [snd].
    apply users_have_carts_bind_cart, Hinv.
  - rewrite cartAdd_not_user by assumption. exact Hinv.
Qed.

Lemma serve_keeps_users_have_carts (r : Request) (w : World) :
  users_have_carts w → users_have_carts (state_of (serve r w)).
Proof.
  intros Hinv. destruct r; cbn [serve].
  - apply getSessionID_keeps_users_have_carts, Hinv.
  - rewrite cartGet_run. exact Hinv.
  - apply cartAdd_keeps_users_have_carts, Hinv.
  - rewrite cartCheckout_readonly. exact Hinv.
  - eapply users_have_carts_same_sessions; [|exact Hinv].
    apply admin_route_sessions. auto with readonly.
  - eapply users_have_carts_same_sessions; [|exact Hinv].
    apply admin_route_sessions. auto with readonly.
  - eapply users_have_carts_same_sessions; [|exact Hinv].
    apply admin_route_sessions. auto with readonly.
  - eapply users_have_carts_same_sessions; [|exact Hinv].
    apply admin_route_sessions. auto with readonly.
  - eapply users_have_carts_same_sessions; [|exact Hinv].
    apply admin_route_sessions. auto with readonly.
Qed.

(** In every reachable state each user token has a cart bound. *)
Lemma reachable_users_have_carts (w : World) :
  reachable w → users_have_carts w.
Proof.
  induction 1 as [w (Husers & _ & _)|w r _ IH].
  - intros tok Htok. rewrite Husers in Htok. set_solver.
  - apply serve_keeps_users_have_carts, IH.
Qed.

(** C2, as the code has it.  In a reachable state [cartAdd] answers "User
    Not Found" for a token outside [userTokens]; for a user token it
    answers with the cart's snapshot when the quantity is at least 0, and
    when the quantity is negative and the cart holds at least that many
    units of the product.  A negative quantity for a product the cart
    lacks raises [KeyError], and one larger than the stored quantity
    raises [ValueError]; the route catches neither. *)
Theorem cartAdd_outcomes (w : World) (request : CartAddSchema) :
  reachable w →
  (req_sessionID request ∉ SessionHandler.userTokens (sessions w) →
   cartAdd request w = (Return UserNotFound, w))
  ∧ (req_sessionID request ∈ SessionHandler.userTokens (sessions w) →
     ∃ cart,
       SessionHandler.carts (sessions w) !! req_sessionID request = Some cart
       ∧ (0 ≤ req_quantity request →
          ∃ cart',
            Cart.addItem (req_product request) (req_quantity request) cart
              = (Return tt, cart')
            ∧ result_of (cartAdd request w)
              = Return (CartResponse (Cart.getCart cart')))
       ∧ (req_quantity request < 0 →
          match Cart.products cart !! req_product request with
          | None => result_of (cartAdd request w) = Raise KeyError
          | Some q =>
              if decide (q < - req_quantity request)
              then result_of (cartAdd request w) = Raise ValueError
              else ∃ cart',
                     Cart.removeItem (req_product request)
                       (- req_quantity request) cart = (Return tt, cart')
                     ∧ result_of (cartAdd request w)
                       = Return (CartResponse (Cart.getCart cart'))
          end)).
Proof.
  intros Hreach. split; [apply cartAdd_not_user|].
  intros Huser.
  destruct (reachable_users_have_carts w Hreach _ Huser) as [cart Hcart].
  exists cart. split; [exact Hcart|].
  rewrite (cartAdd_run _ _ _ Huser Hcart). unfold cart_mutation.
  split.
  - intros Hq. rewrite bool_decide_eq_true_2 by assumption.
    rewrite addItem_run. eexists. split; reflexivity.
  - intros Hq. rewrite bool_decide_eq_false_2 by lia.
    rewrite removeItem_run.
    destruct (Cart.products cart !! req_product request) as [q|];
      [|reflexivity].
    case_decide as Hlt.
    + rewrite bool_decide_eq_true_2 by assumption. reflexivity.
    + rewrite bool_decide_eq_false_2 by assumption.
      eexists. split; reflexivity.
Qed.

(** C2, as stated, fails: after the user has logged in, asking to take
    one unit of product 42 out of the still empty cart makes [cartAdd]
    raise [KeyError]; with two units in the cart, asking to take five out
    makes it raise [ValueError]. *)
Lemma cartAdd_removal_raises :
  reachable demo_logged_in
  ∧ demo_token ∈ SessionHandler.userTokens (sessions demo_logged_in)
  ∧ result_of (cartAdd demo_remove_absent demo_logged_in) = Raise KeyError
  ∧ reachable demo_two_in_cart
  ∧ demo_token ∈ SessionHandler.userTokens (sessions demo_two_in_cart)
  ∧ result_of (cartAdd demo_remove_five demo_two_in_cart) = Raise ValueError.
Proof.
  split; [apply demo_logged_in_reachable|].
  split; [vm_compute; set_solver|].
  split; [vm_compute; reflexivity|].
  split.
  { apply (reachable_serve demo_logged_in (ReqCartAdd demo_add_two)).
    apply demo_logged_in_reachable. }
  split; [vm_compute; set_solver|].
  vm_compute. reflexivity.
Qed.

(** ** The theorems at concrete inputs *)

Lemma cartAdd_outcomes_witness :
  reachable demo_logged_in
  ∧ (req_sessionID demo_add_two
       ∈ SessionHandler.userTokens (sessions demo_logged_in) →
     ∃ cart,
       SessionHandler.carts (sessions demo_logged_in)
         !! req_sessionID demo_add_two = Some cart
       ∧ (0 ≤ req_quantity demo_add_two →
          ∃ cart',
            Cart.addItem (req_product demo_add_two)
              (req_quantity demo_add_two) cart = (Return tt, cart')
            ∧ result_of (cartAdd demo_add_two demo_logged_in)
              = Return (CartResponse (Cart.getCart cart')))
       ∧ (req_quantity demo_add_two < 0 →
          match Cart.products cart !! req_product demo_add_two with
          | None =>
              result_of (cartAdd demo_add_two demo_logged_in) = Raise KeyError
          | Some q =>
              if decide (q < - req_quantity demo_add_two)
              then result_of (cartAdd demo_add_two demo_logged_in)
                   = Raise ValueError
              else ∃ cart',
                     Cart.removeItem (req_product demo_add_two)
                       (- req_quantity demo_add_two) cart = (Return tt, cart')
                     ∧ result_of (cartAdd demo_add_two demo_logged_in)
                       = Return (CartResponse (Cart.getCart cart'))
          end)).
Proof.
  split.
  - apply (reachable_serve demo_world (ReqLogin "a@x.com" "pw")).
    apply reachable_startup. repeat split.
  - apply (cartAdd_outcomes demo_logged_in demo_add_two).
    apply (reachable_serve demo_world (ReqLogin "a@x.com" "pw")).
    apply reachable_startup. repeat split.
Defined.

Lemma cartCheckout_outcome_witness :
  demo_token ∈ SessionHandler.userTokens (sessions demo_three_in_cart)
  ∧ SessionHandler.carts (sessions demo_three_in_cart) !! demo_token
    = Some {| Cart.products := {[ 42 := 3 ]} |}
  ∧ SessionHandler.modes
      (SessionHandler.paymentModes (sessions demo_three_in_cart)) !! "upi"
    = Some "UPI"
  ∧ result_of
      (checkout_total (dict_items (Cart.products
                                     {| Cart.products := {[ 42 := 3 ]} |}))
         0 demo_three_in_cart) = Return 90
  ∧ result_of (cartCheckout "upi" demo_token demo_three_in_cart)
    = Return (Message
                ("You will be shortly redirected to the portal for "
                 +:+ "UPI" +:+ " to make a payment of Rs. " +:+ pretty 90)).
Proof.
  assert (demo_token ∈ SessionHandler.userTokens (sessions demo_three_in_cart))
    as Huser by (vm_compute; set_solver).
  assert (SessionHandler.carts (sessions demo_three_in_cart) !! demo_token
          = Some {| Cart.products := {[ 42 := 3 ]} |}) as Hcart
    by (vm_compute; reflexivity).
  assert (SessionHandler.modes
            (SessionHandler.paymentModes (sessions demo_three_in_cart)) !! "upi"
          = Some "UPI") as Hmode by (vm_compute; reflexivity).
  assert (result_of
            (checkout_total
               (dict_items (Cart.products {| Cart.products := {[ 42 := 3 ]} |}))
               0 demo_three_in_cart) = Return 90) as Htotal
    by (vm_compute; reflexivity).
  split; [exact Huser|]. split; [exact Hcart|]. split; [exact Hmode|].
  split; [exact Htotal|].
  destruct (cartCheckout_outcome demo_three_in_cart "upi" demo_token "UPI"
              {| Cart.products := {[ 42 := 3 ]} |} Huser Hcart Hmode)
    as [Hdecides _].
  destruct (Hdecides 90 Htotal) as (_ & Hpay & _).
  apply Hpay. lia.
Defined.

Lemma removeItem_outcomes_witness :
  0 ≤ 5
  ∧ (result_of (Cart.removeItem 42 5 demo_cart) = Return tt
     ↔ ∃ q, Cart.products demo_cart !! 42 = Some q ∧ 5 ≤ q)
  ∧ (∀ q, Cart.products demo_cart !! 42 = Some q → 5 ≤ q →
          Cart.products (state_of (Cart.removeItem 42 5 demo_cart)) =
          if decide (q - 5 = 0) then delete 42 (Cart.products demo_cart)
          else <[42 := q - 5]> (Cart.products demo_cart)).
Proof.
  split; [lia|].
  destruct (removeItem_outcomes demo_cart 42 5) as (_ & _ & _ & Hok & Hstate);
    [lia|].
  split; [exact Hok|exact Hstate].
Defined.

Lemma addItem_after_removeItem_witness :
  0 ≤ 5
  ∧ Cart.removeItem 42 5 demo_cart = (Return tt, Cart.init)
  ∧ Cart.addItem 42 5 Cart.init = (Return tt, demo_cart).
Proof.
  assert (Cart.removeItem 42 5 demo_cart = (Return tt, Cart.init)) as Hrm
    by (vm_compute; reflexivity).
  split; [lia|]. split; [exact Hrm|].
  apply (addItem_after_removeItem demo_cart Cart.init 42 5); [lia|exact Hrm].
Defined.

Lemma login_empty_leaves_sessions_witness :
  result_of (login "a@x.com" "wrong" demo_world) = Return ""
  ∧ sessions (state_of (login "a@x.com" "wrong" demo_world))
    = sessions demo_world
  ∧ drawn (state_of (login "a@x.com" "wrong" demo_world)) = 16%nat.
Proof.
  assert (result_of (login "a@x.com" "wrong" demo_world) = Return "") as Hempty
    by (vm_compute; reflexivity).
  split; [exact Hempty|].
  destruct (login_empty_leaves_sessions demo_world "a@x.com" "wrong" Hempty)
    as [Hsessions Hdrawn].
  split; [exact Hsessions|]. rewrite Hdrawn. reflexivity.
Defined.

Lemma cart_calls_positive_witness :
  Forall (λ call, 0 ≤ call_count call)
    [AddItem 42 3; AddItem 42 2; RemoveItem 42 4]
  ∧ Forall (λ call, ∀ id num, call = AddItem id num → 0 < num)
      [AddItem 42 3; AddItem 42 2; RemoveItem 42 4]
  ∧ cart_calls [AddItem 42 3; AddItem 42 2; RemoveItem 42 4] Cart.init
    = (Return tt, {| Cart.products := {[ 42 := 1 ]} |})
  ∧ (∀ k q, Cart.products {| Cart.products := {[ 42 := 1 ]} |} !! k = Some q →
            0 < q).
Proof.
  assert (Forall (λ call, 0 ≤ call_count call)
            [AddItem 42 3; AddItem 42 2; RemoveItem 42 4]) as Hcounts
    by (repeat constructor; simpl; lia).
  assert (Forall (λ call, ∀ id num, call = AddItem id num → 0 < num)
            [AddItem 42 3; AddItem 42 2; RemoveItem 42 4]) as Hadds.
  { repeat constructor; intros id num Heq; inversion Heq; lia. }
  assert (cart_calls [AddItem 42 3; AddItem 42 2; RemoveItem 42 4] Cart.init
          = (Return tt, {| Cart.products := {[ 42 := 1 ]} |})) as Hrun
    by (vm_compute; reflexivity).
  split; [exact Hcounts|]. split; [exact Hadds|]. split; [exact Hrun|].
  exact (cart_calls_positive _ _ Hcounts Hadds Hrun).
Defined.

Lemma cart_calls_never_negative_witness :
  Forall (λ call, 0 ≤ call_count call) [AddItem 7 0; AddItem 42 3]
  ∧ cart_calls [AddItem 7 0; AddItem 42 3] Cart.init
    = (Return tt, {| Cart.products := {[ 7 := 0; 42 := 3 ]} |})
  ∧ (∀ k q, Cart.products {| Cart.products := {[ 7 := 0; 42 := 3 ]} |} !! k
            = Some q → 0 ≤ q).
Proof.
  assert (Forall (λ call, 0 ≤ call_count call) [AddItem 7 0; AddItem 42 3])
    as Hcounts by (repeat constructor; simpl; lia).
  assert (cart_calls [AddItem 7 0; AddItem 42 3] Cart.init
          = (Return tt, {| Cart.products := {[ 7 := 0; 42 := 3 ]} |})) as Hrun
    by (vm_compute; reflexivity).
  split; [exact Hcounts|]. split; [exact Hrun|].
  exact (cart_calls_never_negative _ _ Hcounts Hrun).
Defined.


(** ** The scenarios of the specification, run *)

(** A fresh cart: add 3 of product 42, add 2 more, remove 5; the cart is
    empty again and removing one more raises [KeyError]. *)
Example cart_scenario :
  cart_calls [AddItem 42 3] Cart.init
    = (Return tt, {| Cart.products := {[ 42 := 3 ]} |})
  ∧ cart_calls [AddItem 42 3; AddItem 42 2] Cart.init
    = (Return tt, {| Cart.products := {[ 42 := 5 ]} |})
  ∧ cart_calls [AddItem 42 3; AddItem 42 2; RemoveItem 42 5] Cart.init
    = (Return tt, Cart.init)
  ∧ cart_calls [AddItem 42 3; AddItem 42 2; RemoveItem 42 5; RemoveItem 42 1]
      Cart.init
    = (Raise KeyError, Cart.init).
Proof. repeat split; vm_compute; reflexivity. Qed.

(** The user of the small shop logs in: the token is in [userTokens] and
    not in [adminTokens]; a wrong password gives "Unknown credentials". *)
Example user_login_scenario :
  result_of (getSessionID "a@x.com" "pw" demo_world)
    = Return (SessionID demo_token)
  ∧ demo_token ∈ SessionHandler.userTokens (sessions demo_logged_in)
  ∧ (demo_token ∉ SessionHandler.adminTokens (sessions demo_logged_in))
  ∧ result_of (getSessionID "a@x.com" "wrong" demo_world)
    = Return AuthenticationError.
Proof.
  split; [vm_compute; reflexivity|].
  split; [vm_compute; set_solver|].
  split; [vm_compute; set_solver|].
  vm_compute. reflexivity.
Qed.

(** The admin of the small shop logs in.  The scan drew one token for the
    user's record before it reached the admin's, so the admin's token is
    the second draw; it is in [adminTokens] only, and [cartGet] answers it
    with the snapshot of its fresh cart. *)
Example admin_login_scenario :
  result_of (getSessionID "root@x.com" "toor" demo_world)
    = Return (SessionID "08090a0b0c0d0e0f")
  ∧ "08090a0b0c0d0e0f"
      ∈ SessionHandler.adminTokens
          (sessions (state_of (getSessionID "root@x.com" "toor" demo_world)))
  ∧ ("08090a0b0c0d0e0f"
       ∉ SessionHandler.userTokens
           (sessions (state_of (getSessionID "root@x.com" "toor" demo_world))))
  ∧ result_of
      (cartGet "08090a0b0c0d0e0f"
         (state_of (getSessionID "root@x.com" "toor" demo_world)))
    = Return (CartResponse {| Cart.items := [] |}).
Proof.
  split; [vm_compute; reflexivity|].
  split; [vm_compute; set_solver|].
  split; [vm_compute; set_solver|].
  vm_compute. reflexivity.
Qed.

(** * Further properties *)

(** ** Cart *)

(** The snapshot [getCart] builds holds every entry of [products], and
    nothing else, each product ID once. *)
Theorem getCart_lists_each_entry_once (c : Cart.t) :
  (∀ i q, {| Cart.id := i; Cart.quantity := q |} ∈ Cart.items (Cart.getCart c)
          ↔ Cart.products c !! i = Some q)
  ∧ NoDup (Cart.id <$> Cart.items (Cart.getCart c))
  ∧ length (Cart.items (Cart.getCart c)) = size (Cart.products c).
Proof.
  unfold Cart.getCart, dict_items. cbn [Cart.items]. split; [|split].
  - intros i q. rewrite list_elem_of_fmap. split.
    + intros ([i' q'] & Heq & Hin). inversion Heq; subst.
      apply elem_of_map_to_list, Hin.
    + intros Hq. exists (i, q). split; [reflexivity|].
      apply elem_of_map_to_list, Hq.
  - rewrite <- list_fmap_compose.
    rewrite (list_fmap_ext _ fst); [apply NoDup_fst_map_to_list|].
    intros ? [i q] _. reflexivity.
  - rewrite length_fmap. apply length_map_to_list.
Qed.

(** Two [addItem] calls for one product amount to a single call with the
    sum of the two counts: each of the calls returns, the stored quantity
    ends at the old one (0 for a new ID) plus both counts, and the cart is
    the one the single call leaves. *)
Theorem addItem_twice_adds_counts (c : Cart.t) (p n m : Z) :
  result_of (Cart.addItem p n c) = Return tt
  ∧ result_of (Cart.addItem p m (state_of (Cart.addItem p n c))) = Return tt
  ∧ result_of (Cart.addItem p (n + m) c) = Return tt
  ∧ Cart.products (state_of (Cart.addItem p m (state_of (Cart.addItem p n c))))
      !! p = Some (default 0 (Cart.products c !! p) + n + m)
  ∧ Cart.addItem p m (state_of (Cart.addItem p n c)) = Cart.addItem p (n + m) c.
Proof.
  rewrite !addItem_run. unfold result_of, state_of. cbn [fst snd Cart.products].
  rewrite !lookup_insert_eq, insert_insert_eq. cbn [default]. unfold id.
  rewrite Z.add_assoc. repeat split.
Qed.

(** The order of two [addItem] calls does not matter: in both orders both
    calls return, the carts they leave are the same, and in that cart each
    of two different products stands at its old quantity (0 for a new ID)
    plus its own count, every other product as before. *)
Theorem addItem_calls_commute (c : Cart.t) (p1 n1 p2 n2 : Z) :
  result_of (Cart.addItem p1 n1 c) = Return tt
  ∧ result_of (Cart.addItem p2 n2 c) = Return tt
  ∧ result_of (Cart.addItem p2 n2 (state_of (Cart.addItem p1 n1 c)))
    = Return tt
  ∧ result_of (Cart.addItem p1 n1 (state_of (Cart.addItem p2 n2 c)))
    = Return tt
  ∧ Cart.addItem p2 n2 (state_of (Cart.addItem p1 n1 c))
    = Cart.addItem p1 n1 (state_of (Cart.addItem p2 n2 c))
  ∧ (p1 ≠ p2 →
     Cart.products
       (state_of (Cart.addItem p2 n2 (state_of (Cart.addItem p1 n1 c)))) !! p1
     = Some (default 0 (Cart.products c !! p1) + n1)
     ∧ Cart.products
         (state_of (Cart.addItem p2 n2 (state_of (Cart.addItem p1 n1 c)))) !! p2
       = Some (default 0 (Cart.products c !! p2) + n2))
  ∧ (∀ k, k ≠ p1 → k ≠ p2 →
          Cart.products
            (state_of (Cart.addItem p2 n2 (state_of (Cart.addItem p1 n1 c))))
            !! k
          = Cart.products c !! k).
Proof.
  rewrite !addItem_run. unfold result_of, state_of. cbn [fst snd Cart.products].
  split; [reflexivity|]. split; [reflexivity|]. split; [reflexivity|].
  split; [reflexivity|]. split; [|split].
  - do 2 f_equal. destruct (decide (p1 = p2)) as [->|Hne].
    + rewrite !lookup_insert_eq, !insert_insert_eq. cbn [default].
      assert (∀ x, id (x + n1) + n2 = id (x + n2) + n1) as E
        by (intros; unfold id; lia).
      rewrite E. reflexivity.
    + rewrite !lookup_insert_ne by done. apply insert_insert_ne. done.
  - intros Hne. rewrite lookup_insert_eq.
    rewrite !(lookup_insert_ne _ p1 p2) by done.
    rewrite (lookup_insert_ne _ p2 p1) by done.
    rewrite lookup_insert_eq. split; reflexivity.
  - intros k Hk1 Hk2. rewrite !lookup_insert_ne by done. reflexivity.
Qed.

(** [addItem(p, n)] followed by [removeItem(p, n)] gives the cart back as
    it was, for a product that is absent or stored with a quantity above
    zero. *)
Theorem removeItem_after_addItem (c : Cart.t) (p n : Z) :
  (∀ q, Cart.products c !! p = Some q → 0 < q) →
  Cart.removeItem p n (state_of (Cart.addItem p n c)) = (Return tt, c).
Proof.
  intros Hpos. rewrite addItem_run. unfold state_of. cbn [snd].
  rewrite removeItem_run. cbn [Cart.products]. rewrite lookup_insert_eq.
  destruct c as [m]. cbn [Cart.products] in *.
  destruct (m !! p) as [q|] eqn:E; cbn [default]; unfold id.
  - specialize (Hpos q eq_refl).
    rewrite bool_decide_eq_false_2 by lia.
    rewrite bool_decide_eq_false_2 by lia.
    rewrite insert_insert_eq. do 2 f_equal.
    apply insert_id. rewrite E. f_equal. lia.
  - rewrite bool_decide_eq_false_2 by lia.
    rewrite bool_decide_eq_true_2 by lia.
    rewrite delete_insert_eq. do 2 f_equal. apply delete_id. exact E.
Qed.

Lemma removeItem_after_addItem_witness :
  (∀ q, Cart.products demo_cart !! 42 = Some q → 0 < q)
  ∧ Cart.removeItem 42 7 (state_of (Cart.addItem 42 7 demo_cart))
    = (Return tt, demo_cart).
Proof.
  assert (∀ q, Cart.products demo_cart !! 42 = Some q → 0 < q) as Hpos.
  { intros q Hq. cbn in Hq. rewrite lookup_singleton_eq in Hq.
    inversion Hq. lia. }
  split; [exact Hpos|]. exact (removeItem_after_addItem demo_cart 42 7 Hpos).
Defined.

(** ** Database *)

Lemma newProduct_run (product : Database.Product) (self : Database.t) :
  Database.newProduct product self =
  match Database.productDB self !! Database.id product with
  | Some _ => (Return false, self)
  | None =>
      (Return true,
       {| Database.productDB :=
            <[Database.id product := product]> (Database.productDB self);
          Database.categoryDB := Database.categoryDB self |})
  end.
Proof.
  unfold Database.newProduct. rewrite dict_contains_lookup.
  destruct (Database.productDB self !! Database.id product); reflexivity.
Qed.

Lemma updateProduct_run (product : Database.Product) (self : Database.t) :
  Database.updateProduct product self =
  match Database.productDB self !! Database.id product with
  | Some _ =>
      (Return true,
       {| Database.productDB :=
            <[Database.id product := product]> (Database.productDB self);
          Database.categoryDB := Database.categoryDB self |})
  | None => (Return false, self)
  end.
Proof.
  unfold Database.updateProduct. rewrite dict_contains_lookup.
  destruct (Database.productDB self !! Database.id product); reflexivity.
Qed.

Lemma deleteProduct_run (product : Z) (self : Database.t) :
  Database.deleteProduct product self =
  match Database.productDB self !! product with
  | Some _ =>
      (Return true,
       {| Database.productDB := delete product (Database.productDB self);
          Database.categoryDB := Database.categoryDB self |})
  | None => (Return false, self)
  end.
Proof.
  unfold Database.deleteProduct, dict_delitem. rewrite dict_contains_lookup.
  destruct (Database.productDB self !! product); reflexivity.
Qed.

Lemma newCategory_run (category : Database.Category) (self : Database.t) :
  Database.newCategory category self =
  match Database.categoryDB self !! Database.cat_id category with
  | Some _ => (Return false, self)
  | None =>
      (Return true,
       {| Database.productDB := Database.productDB self;
          Database.categoryDB :=
            <[Database.cat_id category := category]>
              (Database.categoryDB self) |})
  end.
Proof.
  unfold Database.newCategory. rewrite dict_contains_lookup.
  destruct (Database.categoryDB self !! Database.cat_id category); reflexivity.
Qed.

Lemma deleteCategory_run (category : Z) (self : Database.t) :
  Database.deleteCategory category self =
  match Database.categoryDB self !! category with
  | Some _ =>
      (Return true,
       {| Database.productDB := Database.productDB self;
          Database.categoryDB := delete category (Database.categoryDB self) |})
  | None => (Return false, self)
  end.
Proof.
  unfold Database.deleteCategory, dict_delitem. rewrite dict_contains_lookup.
  destruct (Database.categoryDB self !! category); reflexivity.
Qed.

Lemma getProduct_lookup (k : Z) (self : Database.t) :
  Database.getProduct k self =
  match Database.productDB self !! k with
  | Some p => Database.ProductInstance p
  | None => Database.ProductClass
  end.
Proof. reflexivity. Qed.

(** [newProduct] never overwrites: for an ID already in the table it
    returns [False] and changes nothing; for a new ID it returns [True],
    [getProduct] then finds the product, and every other ID reads as
    before. *)
Theorem newProduct_never_overwrites (product : Database.Product)
    (self : Database.t) :
  (is_Some (Database.productDB self !! Database.id product) →
   Database.newProduct product self = (Return false, self))
  ∧ (Database.productDB self !! Database.id product = None →
     result_of (Database.newProduct product self) = Return true
     ∧ Database.getProduct (Database.id product)
         (state_of (Database.newProduct product self))
       = Database.ProductInstance product
     ∧ Database.categoryDB (state_of (Database.newProduct product self))
       = Database.categoryDB self
     ∧ ∀ k, k ≠ Database.id product →
            Database.getProduct k (state_of (Database.newProduct product self))
            = Database.getProduct k self).
Proof.
  rewrite newProduct_run. split.
  - intros [old ->]. reflexivity.
  - intros ->. unfold result_of, state_of. cbn [fst snd].
    rewrite !getProduct_lookup. cbn [Database.productDB].
    rewrite lookup_insert_eq. repeat split.
    intros k Hne. rewrite !getProduct_lookup. cbn [Database.productDB].
    rewrite lookup_insert_ne by done. reflexivity.
Qed.

(** [updateProduct] never creates: for an ID the table lacks it returns
    [False] and changes nothing; for a known ID it returns [True],
    [getProduct] then finds the new details, and every other ID reads as
    before. *)
Theorem updateProduct_never_creates (product : Database.Product)
    (self : Database.t) :
  (Database.productDB self !! Database.id product = None →
   Database.updateProduct product self = (Return false, self))
  ∧ (is_Some (Database.productDB self !! Database.id product) →
     result_of (Database.updateProduct product self) = Return true
     ∧ Database.getProduct (Database.id product)
         (state_of (Database.updateProduct product self))
       = Database.ProductInstance product
     ∧ Database.categoryDB (state_of (Database.updateProduct product self))
       = Database.categoryDB self
     ∧ ∀ k, k ≠ Database.id product →
            Database.getProduct k
              (state_of (Database.updateProduct product self))
            = Database.getProduct k self).
Proof.
  rewrite updateProduct_run. split.
  - intros ->. reflexivity.
  - intros [old ->]. unfold result_of, state_of. cbn [fst snd].
    rewrite !getProduct_lookup. cbn [Database.productDB].
    rewrite lookup_insert_eq. repeat split.
    intros k Hne. rewrite !getProduct_lookup. cbn [Database.productDB].
    rewrite lookup_insert_ne by done. reflexivity.
Qed.

(** [deleteProduct] never raises: it returns whether the ID was in the
    table; afterwards [getProduct] finds no instance under the ID, and
    every other ID and every category reads as before. *)
Theorem deleteProduct_reports_presence (product : Z) (self : Database.t) :
  result_of (Database.deleteProduct product self)
  = Return (bool_decide (is_Some (Database.productDB self !! product)))
  ∧ Database.getProduct product (state_of (Database.deleteProduct product self))
    = Database.ProductClass
  ∧ Database.categoryDB (state_of (Database.deleteProduct product self))
    = Database.categoryDB self
  ∧ ∀ k, k ≠ product →
         Database.getProduct k (state_of (Database.deleteProduct product self))
         = Database.getProduct k self.
Proof.
  rewrite deleteProduct_run. unfold result_of, state_of.
  destruct (Database.productDB self !! product) as [old|] eqn:E; cbn [fst snd].
  - rewrite !getProduct_lookup. cbn [Database.productDB].
    rewrite lookup_delete_eq. repeat split.
    intros k Hne. rewrite !getProduct_lookup. cbn [Database.productDB].
    rewrite lookup_delete_ne by done. reflexivity.
  - rewrite getProduct_lookup, E. repeat split.
Qed.

(** Deleting a product right after [newProduct] added it under a new ID
    gives the database back as it was. *)
Theorem deleteProduct_after_newProduct (product : Database.Product)
    (self : Database.t) :
  Database.productDB self !! Database.id product = None →
  Database.deleteProduct (Database.id product)
    (state_of (Database.newProduct product self))
  = (Return true, self).
Proof.
  intros Hnew. rewrite newProduct_run, Hnew. unfold state_of. cbn [snd].
  rewrite deleteProduct_run. cbn [Database.productDB Database.categoryDB].
  rewrite lookup_insert_eq, delete_insert_eq.
  rewrite delete_id by exact Hnew. destruct self; reflexivity.
Qed.

Lemma deleteProduct_after_newProduct_witness :
  Database.productDB (db demo_world) !! Database.id demo_coffee = None
  ∧ Database.deleteProduct (Database.id demo_coffee)
      (state_of (Database.newProduct demo_coffee (db demo_world)))
    = (Return true, db demo_world).
Proof.
  assert (Database.productDB (db demo_world) !! Database.id demo_coffee = None)
    as Hnew by (vm_compute; reflexivity).
  split; [exact Hnew|].
  exact (deleteProduct_after_newProduct demo_coffee (db demo_world) Hnew).
Defined.

(** The category table: [newCategory] refuses an ID already present and
    changes nothing then; [deleteCategory] returns whether the ID was
    present and leaves no category under it; neither touches a product or
    another category. *)
Theorem category_table_updates (category : Database.Category) (k : Z)
    (self : Database.t) :
  (is_Some (Database.categoryDB self !! Database.cat_id category) →
   Database.newCategory category self = (Return false, self))
  ∧ (Database.categoryDB self !! Database.cat_id category = None →
     result_of (Database.newCategory category self) = Return true
     ∧ Database.categoryDB (state_of (Database.newCategory category self))
       = <[Database.cat_id category := category]> (Database.categoryDB self))
  ∧ Database.productDB (state_of (Database.newCategory category self))
    = Database.productDB self
  ∧ result_of (Database.deleteCategory k self)
    = Return (bool_decide (is_Some (Database.categoryDB self !! k)))
  ∧ Database.categoryDB (state_of (Database.deleteCategory k self))
    = delete k (Database.categoryDB self)
  ∧ Database.productDB (state_of (Database.deleteCategory k self))
    = Database.productDB self.
Proof.
  rewrite newCategory_run, deleteCategory_run. unfold result_of, state_of.
  split; [|split; [|split; [|split; [|split]]]].
  - intros [old ->]. reflexivity.
  - intros ->. split; reflexivity.
  - destruct (Database.categoryDB self !! Database.cat_id category); reflexivity.
  - destruct (Database.categoryDB self !! k) eqn:E; cbn [fst].
    + rewrite bool_decide_eq_true_2 by eauto. reflexivity.
    + rewrite bool_decide_eq_false_2; [reflexivity|]. intros [? ?]. discriminate.
  - destruct (Database.categoryDB self !! k) eqn:E; cbn [snd]; [reflexivity|].
    symmetry. apply delete_id. exact E.
  - destruct (Database.categoryDB self !! k); reflexivity.
Qed.

(** ** What a request can change *)

(** The two ways [getSessionID] can end. *)
Lemma getSessionID_cases (email password : string) (w : World) :
  (result_of (getSessionID email password w) = Return AuthenticationError
   ∧ sessions (state_of (getSessionID email password w)) = sessions w
   ∧ db (state_of (getSessionID email password w)) = db w)
  ∨ ∃ tok (admin : bool),
      result_of (getSessionID email password w) = Return (SessionID tok)
      ∧ db (state_of (getSessionID email password w)) = db w
      ∧ sessions (state_of (getSessionID email password w)) =
        SessionHandler.set_carts
          (<[tok := Cart.init]> (SessionHandler.carts (sessions w)))
          (if admin then SessionHandler.add_adminToken tok (sessions w)
           else SessionHandler.add_userToken tok (sessions w)).
Proof.
  rewrite getSessionID_run, login_run.
  destruct (first_match_split (SessionHandler.database (sessions w))
              email password)
    as [Hnone|(pre & cred & post & Hdb & Hpre & Hcred)].
  - left. rewrite login_scan_no_match by assumption.
    rewrite bool_decide_eq_true_2 by reflexivity. repeat split.
  - right. rewrite Hdb, login_scan_first_match by assumption.
    rewrite bool_decide_eq_false_2 by apply token_nonempty.
    exists (hex (tape_bytes (entropy w) (drawn w + 8 * length pre) 8)),
      (SessionHandler.isAdmin cred).
    unfold result_of, state_of. cbn [fst snd].
    destruct (SessionHandler.isAdmin cred); repeat split.
Qed.

(** The two ways [cartAdd] can leave the state. *)
Lemma cartAdd_cases (request : CartAddSchema) (w : World) :
  state_of (cartAdd request w) = w
  ∨ ∃ cart,
      req_sessionID request ∈ SessionHandler.userTokens (sessions w)
      ∧ SessionHandler.carts (sessions w) !! req_sessionID request = Some cart
      ∧ state_of (cartAdd request w)
        = bind_cart (req_sessionID request)
            (state_of (cart_mutation request cart)) w.
Proof.
  destruct (decide (req_sessionID request
                    ∈ SessionHandler.userTokens (sessions w))) as [Huser|Hnot].
  - destruct (SessionHandler.carts (sessions w) !! req_sessionID request)
      as [cart|] eqn:Hcart.
    + right. exists cart. rewrite (cartAdd_run _ _ _ Huser Hcart).
      repeat split; assumption.
    + left. rewrite cartAdd_no_cart by assumption. reflexivity.
  - left. rewrite cartAdd_not_user by assumption. reflexivity.
Qed.

(** A route guarded by [is_admin] answers a token outside [adminTokens]
    with "Not Authorized" and does nothing. *)
Lemma admin_route_refused (sessionID : string) (m : Py World Response)
    (w : World) :
  sessionID ∉ SessionHandler.adminTokens (sessions w) →
  (admin ← is_admin sessionID;
   if negb admin then mret SessionError else m) w
  = (Return SessionError, w).
Proof.
  intros Hnot. unfold is_admin. rewrite py_bind_run. unfold gets.
  rewrite bool_decide_eq_false_2 by assumption. reflexivity.
Qed.

(** The requests that reach neither [getSessionID] nor [cartAdd] leave
    the session handler alone. *)
Lemma serve_other_sessions (r : Request) (w : World) :
  (∀ email password, r ≠ ReqLogin email password) →
  (∀ request, r ≠ ReqCartAdd request) →
  sessions (state_of (serve r w)) = sessions w.
Proof.
  intros Hlogin Hadd. destruct r; cbn [serve].
  - exfalso. eapply Hlogin. reflexivity.
  - rewrite cartGet_run. reflexivity.
  - exfalso. eapply Hadd. reflexivity.
  - rewrite cartCheckout_readonly. reflexivity.
  - apply admin_route_sessions. auto with readonly.
  - apply admin_route_sessions. auto with readonly.
  - apply admin_route_sessions. auto with readonly.
  - apply admin_route_sessions. auto with readonly.
  - apply admin_route_sessions. auto with readonly.
Qed.

(** Only a request that carries an admin token changes a table of the
    database. *)
Theorem only_admins_change_db (r : Request) (w : World) :
  (∀ sessionID, request_session r = Some sessionID →
                sessionID ∉ SessionHandler.adminTokens (sessions w)) →
  db (state_of (serve r w)) = db w.
Proof.
  intros Hnot. destruct r; cbn [serve request_session] in *.
  - destruct (getSessionID_cases email password w)
      as [(_ & _ & Hdb)|(tok & admin & _ & Hdb & _)]; exact Hdb.
  - rewrite cartGet_run. reflexivity.
  - destruct (cartAdd_cases request w) as [->|(cart & _ & _ & ->)];
      reflexivity.
  - rewrite cartCheckout_readonly. reflexivity.
  - unfold newProduct. rewrite admin_route_refused by auto. reflexivity.
  - unfold updateProduct. rewrite admin_route_refused by auto. reflexivity.
  - unfold deleteProduct. rewrite admin_route_refused by auto. reflexivity.
  - unfold newCategory. rewrite admin_route_refused by auto. reflexivity.
  - unfold deleteCategory. rewrite admin_route_refused by auto. reflexivity.
Qed.

Lemma only_admins_change_db_witness :
  (∀ sessionID,
     request_session (ReqDeleteProduct 42 demo_token) = Some sessionID →
     sessionID ∉ SessionHandler.adminTokens (sessions demo_logged_in))
  ∧ db (state_of (serve (ReqDeleteProduct 42 demo_token) demo_logged_in))
    = db demo_logged_in.
Proof.
  assert (∀ sessionID,
            request_session (ReqDeleteProduct 42 demo_token) = Some sessionID →
            sessionID ∉ SessionHandler.adminTokens (sessions demo_logged_in))
    as Hnot.
  { intros sessionID Heq. inversion Heq; subst. vm_compute. set_solver. }
  split; [exact Hnot|].
  exact (only_admins_change_db (ReqDeleteProduct 42 demo_token)
           demo_logged_in Hnot).
Defined.

Lemma sessions_grow_refl (s : SessionHandler.t) : sessions_grow s s.
Proof. repeat split; reflexivity. Qed.

(** No request revokes a token, unbinds a cart, or changes the
    credentials or the payment modes. *)
Theorem serve_never_revokes (r : Request) (w : World) :
  sessions_grow (sessions w) (sessions (state_of (serve r w))).
Proof.
  destruct r as [email password| |request| | | | | |];
    try (rewrite serve_other_sessions by discriminate; apply sessions_grow_refl).
  - cbn [serve].
    destruct (getSessionID_cases email password w)
      as [(_ & -> & _)|(tok & admin & _ & _ & ->)];
      [apply sessions_grow_refl|].
    unfold sessions_grow. destruct admin; cbn.
    + repeat split; [set_solver|set_solver|].
      unfold dict_setitem. rewrite dom_insert_L. set_solver.
    + repeat split; [set_solver|set_solver|].
      unfold dict_setitem. rewrite dom_insert_L. set_solver.
  - cbn [serve].
    destruct (cartAdd_cases request w) as [->|(cart & _ & Hcart & ->)];
      [apply sessions_grow_refl|].
    unfold sessions_grow. cbn. repeat split; try reflexivity.
    unfold dict_setitem. rewrite dom_insert_L. set_solver.
Qed.

(** ** Invariants of the reachable states *)

Lemma serve_keeps_carts_match_tokens (r : Request) (w : World) :
  carts_match_tokens w → carts_match_tokens (state_of (serve r w)).
Proof.
  unfold carts_match_tokens. intros Hinv.
  destruct r as [email password| |request| | | | | |];
    try (rewrite serve_other_sessions by discriminate; exact Hinv).
  - cbn [serve].
    destruct (getSessionID_cases email password w)
      as [(_ & -> & _)|(tok & admin & _ & _ & ->)]; [exact Hinv|].
    destruct admin; cbn; unfold dict_setitem; rewrite dom_insert_L, Hinv;
      apply set_eq; intros x; rewrite !elem_of_union; tauto.
  - cbn [serve].
    destruct (cartAdd_cases request w) as [->|(cart & Huser & Hcart & ->)];
      [exact Hinv|].
    cbn. unfold dict_setitem. rewrite dom_insert_L, Hinv.
    apply set_eq. intros x. rewrite !elem_of_union, elem_of_singleton.
    split; [intros [->|?]; tauto|tauto].
Qed.

(** In every reachable state the session IDs with a cart bound are the
    tokens of the two role sets: each token issued has a cart, and there
    is no cart without a token. *)
Theorem reachable_carts_match_tokens (w : World) :
  reachable w → carts_match_tokens w.
Proof.
  induction 1 as [w (Husers & Hadmins & Hcarts)|w r _ IH].
  - unfold carts_match_tokens. rewrite Husers, Hadmins, Hcarts.
    rewrite dom_empty_L. set_solver.
  - apply serve_keeps_carts_match_tokens, IH.
Qed.

Lemma reachable_carts_match_tokens_witness :
  reachable demo_logged_in
  ∧ dom (SessionHandler.carts (sessions demo_logged_in))
    = SessionHandler.userTokens (sessions demo_logged_in)
      ∪ SessionHandler.adminTokens (sessions demo_logged_in).
Proof.
  assert (reachable demo_logged_in) as Hreach.
  { apply (reachable_serve demo_world (ReqLogin "a@x.com" "pw")).
    apply reachable_startup. repeat split. }
  split; [exact Hreach|].
  exact (reachable_carts_match_tokens demo_logged_in Hreach).
Defined.

(** The mutator [cartAdd] picks keeps the stored quantities at or above
    zero, whether it returns or raises. *)
Lemma cart_mutation_nonneg (request : CartAddSchema) (cart : Cart.t) :
  (∀ p q, Cart.products cart !! p = Some q → 0 ≤ q) →
  ∀ p q, Cart.products (state_of (cart_mutation request cart)) !! p = Some q →
         0 ≤ q.
Proof.
  intros Hinv p q. unfold cart_mutation. case_bool_decide as Hsign.
  - rewrite addItem_run. unfold state_of. cbn [snd Cart.products].
    destruct (decide (req_product request = p)) as [->|Hne].
    + rewrite lookup_insert_eq. intros Heq. inversion Heq; subst q.
      destruct (Cart.products cart !! p) as [q0|] eqn:E; cbn; [|lia].
      specialize (Hinv p q0 E). lia.
    + rewrite lookup_insert_ne by done. apply Hinv.
  - rewrite removeItem_run.
    destruct (Cart.products cart !! req_product request) as [q0|] eqn:E;
      [|apply Hinv].
    case_bool_decide as Hlt; [apply Hinv|].
    unfold state_of. cbn [snd Cart.products]. case_bool_decide as Hz.
    + intros Hq. apply lookup_delete_Some in Hq as [_ Hq]. eauto.
    + destruct (decide (req_product request = p)) as [->|Hne].
      * rewrite lookup_insert_eq. intros Heq. inversion Heq; subst q. lia.
      * rewrite lookup_insert_ne by done. apply Hinv.
Qed.

Lemma serve_keeps_carts_nonnegative (r : Request) (w : World) :
  carts_nonnegative w → carts_nonnegative (state_of (serve r w)).
Proof.
  unfold carts_nonnegative. intros Hinv.
  destruct r as [email password| |request| | | | | |];
    try (rewrite serve_other_sessions by discriminate; exact Hinv).
  - cbn [serve].
    destruct (getSessionID_cases email password w)
      as [(_ & -> & _)|(tok & admin & _ & _ & ->)]; [exact Hinv|].
    intros t cart p q Hcart Hq.
    assert (<[tok := Cart.init]> (SessionHandler.carts (sessions w)) !! t
            = Some cart) as Hcart' by (destruct admin; exact Hcart).
    destruct (decide (tok = t)) as [->|Hne].
    + rewrite lookup_insert_eq in Hcart'. inversion Hcart'; subst cart.
      cbn in Hq. rewrite lookup_empty in Hq. discriminate.
    + rewrite lookup_insert_ne in Hcart' by done. eauto.
  - cbn [serve].
    destruct (cartAdd_cases request w) as [->|(cart & Huser & Hcart & ->)];
      [exact Hinv|].
    intros t cart' p q Hcart' Hq. cbn in Hcart'. unfold dict_setitem in Hcart'.
    destruct (decide (req_sessionID request = t)) as [<-|Hne].
    + rewrite lookup_insert_eq in Hcart'. inversion Hcart'; subst cart'.
      eapply cart_mutation_nonneg; [|exact Hq].
      intros p' q' Hq'. exact (Hinv _ _ _ _ Hcart Hq').
    + rewrite lookup_insert_ne in Hcart' by done. eauto.
Qed.

(** Whatever requests were served, no cart holds a negative quantity. *)
Theorem reachable_carts_nonnegative (w : World) :
  reachable w →
  ∀ tok cart p q,
    SessionHandler.carts (sessions w) !! tok = Some cart →
    Cart.products cart !! p = Some q → 0 ≤ q.
Proof.
  induction 1 as [w (_ & _ & Hcarts)|w r _ IH].
  - intros tok cart p q Hcart. rewrite Hcarts, lookup_empty in Hcart.
    discriminate.
  - exact (serve_keeps_carts_nonnegative r w IH).
Qed.

Lemma reachable_carts_nonnegative_witness :
  reachable demo_three_in_cart
  ∧ SessionHandler.carts (sessions demo_three_in_cart) !! demo_token
    = Some {| Cart.products := {[ 42 := 3 ]} |}
  ∧ Cart.products {| Cart.products := {[ 42 := 3 ]} |} !! 42 = Some 3
  ∧ 0 ≤ 3.
Proof.
  assert (reachable demo_three_in_cart) as Hreach.
  { apply (reachable_serve demo_logged_in (ReqCartAdd demo_add_three)).
    apply (reachable_serve demo_world (ReqLogin "a@x.com" "pw")).
    apply reachable_startup. repeat split. }
  assert (SessionHandler.carts (sessions demo_three_in_cart) !! demo_token
          = Some {| Cart.products := {[ 42 := 3 ]} |}) as Hcart
    by (vm_compute; reflexivity).
  assert (Cart.products {| Cart.products := {[ 42 := 3 ]} |} !! 42 = Some 3)
    as Hq by (vm_compute; reflexivity).
  split; [exact Hreach|]. split; [exact Hcart|]. split; [exact Hq|].
  exact (reachable_carts_nonnegative demo_three_in_cart Hreach
           demo_token _ 42 3 Hcart Hq).
Defined.

(** ** Frames of the two session routes *)

(** [cartAdd] touches the cart of the session ID in the request and
    nothing else: the carts of all other session IDs, both token sets and
    the database stay as they were. *)
Theorem cartAdd_touches_one_cart (request : CartAddSchema) (w : World) :
  (∀ t, t ≠ req_sessionID request →
        SessionHandler.carts (sessions (state_of (cartAdd request w))) !! t
        = SessionHandler.carts (sessions w) !! t)
  ∧ SessionHandler.userTokens (sessions (state_of (cartAdd request w)))
    = SessionHandler.userTokens (sessions w)
  ∧ SessionHandler.adminTokens (sessions (state_of (cartAdd request w)))
    = SessionHandler.adminTokens (sessions w)
  ∧ db (state_of (cartAdd request w)) = db w.
Proof.
  destruct (cartAdd_cases request w) as [->|(cart & _ & _ & ->)].
  - repeat split.
  - split; [|repeat split].
    intros t Hne. cbn. unfold dict_setitem. apply lookup_insert_ne. done.
Qed.

(** A login that fails changes neither the session handler nor the
    database.  A login that succeeds binds a fresh cart to the new session
    ID and leaves the carts of all other session IDs and the database as
    they were. *)
Theorem getSessionID_touches_one_cart (email password : string) (w : World) :
  (result_of (getSessionID email password w) = Return AuthenticationError →
   sessions (state_of (getSessionID email password w)) = sessions w)
  ∧ (∀ tok,
       result_of (getSessionID email password w) = Return (SessionID tok) →
       ∀ t, t ≠ tok →
            SessionHandler.carts
              (sessions (state_of (getSessionID email password w))) !! t
            = SessionHandler.carts (sessions w) !! t)
  ∧ db (state_of (getSessionID email password w)) = db w.
Proof.
  destruct (getSessionID_cases email password w)
    as [(Hres & Hs & Hdb)|(tok & admin & Hres & Hdb & Hs)];
    rewrite Hres, Hs, Hdb.
  - split; [reflexivity|]. split; [|reflexivity]. intros tok Heq. discriminate.
  - split; [discriminate|]. split; [|reflexivity].
    intros tok' Heq t Hne. inversion Heq; subst tok'.
    destruct admin; cbn; apply lookup_insert_ne; done.
Qed.

(** The snapshot [cartAdd] answers with is the one [cartGet] shows right
    after it. *)
Theorem cartGet_after_cartAdd (request : CartAddSchema) (w : World)
    (snapshot : Cart.CartSchema) :
  result_of (cartAdd request w) = Return (CartResponse snapshot) →
  result_of (cartGet (req_sessionID request) (state_of (cartAdd request w)))
  = Return (CartResponse snapshot).
Proof.
  destruct (decide (req_sessionID request
                    ∈ SessionHandler.userTokens (sessions w))) as [Huser|Hnot].
  - destruct (SessionHandler.carts (sessions w) !! req_sessionID request)
      as [cart|] eqn:Hcart.
    + rewrite (cartAdd_run _ _ _ Huser Hcart). unfold result_of at 1.
      cbn [fst].
      destruct (result_of (cart_mutation request cart)) as [[]|e];
        [|discriminate].
      intros Heq. unfold state_of at 1. cbn [snd].
      rewrite cartGet_run, bind_cart_lookup. exact Heq.
    + rewrite cartAdd_no_cart by assumption. discriminate.
  - rewrite cartAdd_not_user by assumption. discriminate.
Qed.

Lemma cartGet_after_cartAdd_witness :
  result_of (cartAdd demo_add_three demo_logged_in)
  = Return (CartResponse
              {| Cart.items := [ {| Cart.id := 42; Cart.quantity := 3 |} ] |})
  ∧ result_of (cartGet (req_sessionID demo_add_three)
                 (state_of (cartAdd demo_add_three demo_logged_in)))
    = Return (CartResponse
                {| Cart.items := [ {| Cart.id := 42; Cart.quantity := 3 |} ] |}).
Proof.
  assert (result_of (cartAdd demo_add_three demo_logged_in)
          = Return (CartResponse
                      {| Cart.items :=
                           [ {| Cart.id := 42; Cart.quantity := 3 |} ] |}))
    as Hadd by (vm_compute; reflexivity).
  split; [exact Hadd|].
  exact (cartGet_after_cartAdd demo_add_three demo_logged_in _ Hadd).
Defined.

(** ** The guards of cartCheckout *)

Lemma cartCheckout_not_user (mode sessionID : string) (w : World) :
  sessionID ∉ SessionHandler.userTokens (sessions w) →
  cartCheckout mode sessionID w = (Return SessionError, w).
Proof.
  intros Hnot. unfold cartCheckout, is_user. rewrite py_bind_run. unfold gets.
  rewrite bool_decide_eq_false_2 by assumption. reflexivity.
Qed.

Lemma cartCheckout_unknown_mode (mode sessionID : string) (w : World) :
  sessionID ∈ SessionHandler.userTokens (sessions w) →
  SessionHandler.modes (SessionHandler.paymentModes (sessions w)) !! mode = None →
  cartCheckout mode sessionID w =
  (Return (PaymentModeError (SessionHandler.paymentModes (sessions w))), w).
Proof.
  intros Huser Hmode. unfold cartCheckout, is_user. py_unfold.
  rewrite bool_decide_eq_true_2 by assumption. cbn [negb].
  rewrite dict_contains_lookup, Hmode. reflexivity.
Qed.

Lemma cartCheckout_no_cart (mode sessionID portal : string) (w : World) :
  sessionID ∈ SessionHandler.userTokens (sessions w) →
  SessionHandler.modes (SessionHandler.paymentModes (sessions w)) !! mode
    = Some portal →
  SessionHandler.carts (sessions w) !! sessionID = None →
  cartCheckout mode sessionID w = (Raise KeyError, w).
Proof.
  intros Huser Hmode Hcart. unfold cartCheckout, is_user, cart_of. py_unfold.
  rewrite bool_decide_eq_true_2 by assumption. cbn [negb].
  rewrite dict_contains_lookup, Hmode. cbn [negb].
  unfold dict_getitem. rewrite Hcart. reflexivity.
Qed.

(** [cartCheckout] answers "Not Authorized" exactly for the session IDs
    outside [userTokens], whatever the mode, and answers with the payment
    mode error exactly for user tokens with a mode that is not configured;
    the error carries the configured modes. *)
Theorem cartCheckout_refusals (mode sessionID : string) (w : World) :
  (result_of (cartCheckout mode sessionID w) = Return SessionError
   ↔ sessionID ∉ SessionHandler.userTokens (sessions w))
  ∧ (∀ known,
       result_of (cartCheckout mode sessionID w)
         = Return (PaymentModeError known)
       ↔ sessionID ∈ SessionHandler.userTokens (sessions w)
         ∧ SessionHandler.modes (SessionHandler.paymentModes (sessions w))
             !! mode = None
         ∧ known = SessionHandler.paymentModes (sessions w)).
Proof.
  destruct (decide (sessionID ∈ SessionHandler.userTokens (sessions w)))
    as [Huser|Hnot].
  - destruct (SessionHandler.modes (SessionHandler.paymentModes (sessions w))
                !! mode) as [portal|] eqn:Hmode.
    + assert (∀ r, result_of (cartCheckout mode sessionID w) = Return r →
                   ∃ msg, r = Message msg) as Hmsg.
      { destruct (SessionHandler.carts (sessions w) !! sessionID)
          as [cart|] eqn:Hcart.
        - rewrite (cartCheckout_run _ _ _ _ _ Huser Hcart Hmode).
          destruct (checkout_total _ _ _) as [[netTotal|e] w'];
            unfold result_of; cbn [fst]; intros r Heq;
            inversion Heq; eauto.
        - rewrite (cartCheckout_no_cart _ _ _ _ Huser Hmode Hcart).
          intros r Heq. discriminate. }
      split.
      * split; [|done]. intros Heq. destruct (Hmsg _ Heq). discriminate.
      * intros known. split.
        -- intros Heq. destruct (Hmsg _ Heq). discriminate.
        -- intros (_ & Hnone & _). discriminate.
    + rewrite (cartCheckout_unknown_mode _ _ _ Huser Hmode).
      unfold result_of. cbn [fst]. split.
      * split; [discriminate|done].
      * intros known. split.
        -- intros Heq. inversion Heq. done.
        -- intros (_ & _ & ->). reflexivity.
  - rewrite (cartCheckout_not_user _ _ _ Hnot). unfold result_of. cbn [fst].
    split.
    + split; done.
    + intros known. split; [discriminate|]. intros (Huser & _). done.
Qed.

(** ** The admin routes *)

Lemma admin_route_run (sessionID : string) (m : Py World Response)
    (w : World) :
  sessionID ∈ SessionHandler.adminTokens (sessions w) →
  (admin ← is_admin sessionID;
   if negb admin then mret SessionError else m) w = m w.
Proof.
  intros Hadmin. unfold is_admin. rewrite py_bind_run. unfold gets.
  rewrite bool_decide_eq_true_2 by assumption. reflexivity.
Qed.

Lemma with_db_same (w : World) : with_db (db w) w = w.
Proof. destruct w; reflexivity. Qed.

(** The route [newProduct] answers an admin with the product that is in
    the table under the ID after the call: the one sent when the ID was
    free, and the one already stored, untouched, when the ID was taken. *)
Theorem newProduct_answers_stored_product (sessionID : string)
    (product : Database.Product) (w : World) :
  sessionID ∈ SessionHandler.adminTokens (sessions w) →
  result_of (newProduct sessionID product w)
  = Return (ProductResponse
              (Database.ProductInstance
                 (default product
                    (Database.productDB (db w) !! Database.id product))))
  ∧ (is_Some (Database.productDB (db w) !! Database.id product) →
     state_of (newProduct sessionID product w) = w)
  ∧ sessions (state_of (newProduct sessionID product w)) = sessions w.
Proof.
  intros Hadmin. unfold newProduct. rewrite admin_route_run by assumption.
  rewrite py_bind_run. unfold on_db. rewrite newProduct_run.
  destruct (Database.productDB (db w) !! Database.id product) as [old|] eqn:E.
  - rewrite with_db_same. py_unfold. rewrite getProduct_lookup, E.
    repeat split.
  - py_unfold. rewrite getProduct_lookup. cbn.
    rewrite lookup_insert_eq. split; [reflexivity|].
    split; [intros [? ?]; discriminate|reflexivity].
Qed.

Lemma newProduct_answers_stored_product_witness :
  demo_admin_token ∈ SessionHandler.adminTokens (sessions demo_both_logged_in)
  ∧ result_of (newProduct demo_admin_token
                 {| Database.id := 42; Database.name := "mate";
                    Database.category := 1; Database.price := 1 |}
                 demo_both_logged_in)
    = Return (ProductResponse
                (Database.ProductInstance
                   (default {| Database.id := 42; Database.name := "mate";
                               Database.category := 1; Database.price := 1 |}
                      (Database.productDB (db demo_both_logged_in) !! 42)))).
Proof.
  assert (demo_admin_token
            ∈ SessionHandler.adminTokens (sessions demo_both_logged_in))
    as Hadmin by (vm_compute; set_solver).
  split; [exact Hadmin|].
  exact (proj1 (newProduct_answers_stored_product demo_admin_token
                  {| Database.id := 42; Database.name := "mate";
                     Database.category := 1; Database.price := 1 |}
                  demo_both_logged_in Hadmin)).
Defined.

(** The route [updateProduct] answers an admin with the product sent when
    the ID is in the table; for an ID the table lacks it changes nothing
    and the answer is the model class [Product] itself. *)
Theorem updateProduct_answers_class_for_unknown_id (sessionID : string)
    (product : Database.Product) (w : World) :
  sessionID ∈ SessionHandler.adminTokens (sessions w) →
  (is_Some (Database.productDB (db w) !! Database.id product) →
   result_of (updateProduct sessionID product w)
   = Return (ProductResponse (Database.ProductInstance product)))
  ∧ (Database.productDB (db w) !! Database.id product = None →
     updateProduct sessionID product w
     = (Return (ProductResponse Database.ProductClass), w)).
Proof.
  intros Hadmin. unfold updateProduct. rewrite admin_route_run by assumption.
  rewrite py_bind_run. unfold on_db. rewrite updateProduct_run.
  split.
  - intros [old ->]. py_unfold. rewrite getProduct_lookup. cbn.
    rewrite lookup_insert_eq. reflexivity.
  - intros Hnone. rewrite Hnone, with_db_same. py_unfold.
    rewrite getProduct_lookup, Hnone. reflexivity.
Qed.

Lemma updateProduct_answers_class_for_unknown_id_witness :
  demo_admin_token ∈ SessionHandler.adminTokens (sessions demo_both_logged_in)
  ∧ Database.productDB (db demo_both_logged_in) !! Database.id demo_coffee
    = None
  ∧ updateProduct demo_admin_token demo_coffee demo_both_logged_in
    = (Return (ProductResponse Database.ProductClass), demo_both_logged_in).
Proof.
  assert (demo_admin_token
            ∈ SessionHandler.adminTokens (sessions demo_both_logged_in))
    as Hadmin by (vm_compute; set_solver).
  assert (Database.productDB (db demo_both_logged_in)
            !! Database.id demo_coffee = None) as Hnone
    by (vm_compute; reflexivity).
  split; [exact Hadmin|]. split; [exact Hnone|].
  exact (proj2 (updateProduct_answers_class_for_unknown_id demo_admin_token
                  demo_coffee demo_both_logged_in Hadmin) Hnone).
Defined.

(** Deleting a product does not take it out of the carts: once an admin
    has deleted a product that a user's cart holds, that user's checkout
    raises [AttributeError]. *)
Theorem deleteProduct_breaks_checkout (admin user mode portal : string)
    (cart : Cart.t) (item qty : Z) (w : World) :
  admin ∈ SessionHandler.adminTokens (sessions w) →
  user ∈ SessionHandler.userTokens (sessions w) →
  SessionHandler.carts (sessions w) !! user = Some cart →
  Cart.products cart !! item = Some qty →
  SessionHandler.modes (SessionHandler.paymentModes (sessions w)) !! mode
    = Some portal →
  cartCheckout mode user (state_of (deleteProduct item admin w))
  = (Raise AttributeError, state_of (deleteProduct item admin w)).
Proof.
  intros Hadmin Huser Hcart Hitem Hmode.
  assert (sessions (state_of (deleteProduct item admin w)) = sessions w)
    as Hs by (apply admin_route_sessions; auto with readonly).
  assert (Database.productDB (db (state_of (deleteProduct item admin w)))
            !! item = None) as Hgone.
  { unfold deleteProduct. rewrite admin_route_run by assumption.
    rewrite py_bind_run. unfold on_db. rewrite deleteProduct_run.
    destruct (Database.productDB (db w) !! item) eqn:E; cbn.
    - apply lookup_delete_eq.
    - exact E. }
  apply (cartCheckout_unlisted_raises mode user portal cart _ item qty);
    rewrite ?Hs; assumption.
Qed.

Lemma deleteProduct_breaks_checkout_witness :
  demo_admin_token ∈ SessionHandler.adminTokens (sessions demo_cart_filled)
  ∧ demo_token ∈ SessionHandler.userTokens (sessions demo_cart_filled)
  ∧ SessionHandler.carts (sessions demo_cart_filled) !! demo_token
    = Some {| Cart.products := {[ 42 := 3 ]} |}
  ∧ result_of (cartCheckout "upi" demo_token demo_cart_filled)
    = Return (Message (payment_message "UPI" 90))
  ∧ cartCheckout "upi" demo_token
      (state_of (deleteProduct 42 demo_admin_token demo_cart_filled))
    = (Raise AttributeError,
       state_of (deleteProduct 42 demo_admin_token demo_cart_filled)).
Proof.
  assert (demo_admin_token
            ∈ SessionHandler.adminTokens (sessions demo_cart_filled))
    as Hadmin by (vm_compute; set_solver).
  assert (demo_token ∈ SessionHandler.userTokens (sessions demo_cart_filled))
    as Huser by (vm_compute; set_solver).
  assert (SessionHandler.carts (sessions demo_cart_filled) !! demo_token
          = Some {| Cart.products := {[ 42 := 3 ]} |}) as Hcart
    by (vm_compute; reflexivity).
  split; [exact Hadmin|]. split; [exact Huser|]. split; [exact Hcart|].
  split; [vm_compute; reflexivity|].
  apply (deleteProduct_breaks_checkout demo_admin_token demo_token "upi" "UPI"
           {| Cart.products := {[ 42 := 3 ]} |} 42 3 demo_cart_filled
           Hadmin Huser Hcart).
  - vm_compute. reflexivity.
  - vm_compute. reflexivity.
Defined.

(** ** The checkout total and the cart *)

Lemma sum_permutation (l1 l2 : list Z) :
  l1 ≡ₚ l2 → foldr Z.add 0 l1 = foldr Z.add 0 l2.
Proof.
  induction 1 as [|x l1 l2 _ IH|x y l|l1 l2 l3 _ IH1 _ IH2]; cbn.
  - reflexivity.
  - rewrite IH. reflexivity.
  - lia.
  - congruence.
Qed.

Lemma cart_cost_insert_absent (d : Database.t) (m : gmap Z Z) (p v : Z) :
  m !! p = None →
  cart_cost d {| Cart.products := <[p := v]> m |}
  = entry_cost d (p, v) + cart_cost d {| Cart.products := m |}.
Proof.
  intros Hnone. unfold cart_cost, dict_items. cbn [Cart.products].
  rewrite (sum_permutation _ (entry_cost d <$> (p, v) :: map_to_list m)).
  - reflexivity.
  - apply fmap_Permutation, map_to_list_insert, Hnone.
Qed.

(** The cost of a cart after [addItem]: the cost before plus the count
    times what the table says the product costs. *)
Lemma cart_cost_addItem (d : Database.t) (cart : Cart.t) (p n : Z) :
  cart_cost d (state_of (Cart.addItem p n cart))
  = cart_cost d cart + default 0 (catalogue_price d p) * n.
Proof.
  rewrite addItem_run. unfold state_of. cbn [snd].
  destruct cart as [m]. cbn [Cart.products].
  rewrite <- (insert_delete_eq m).
  rewrite cart_cost_insert_absent by apply lookup_delete_eq.
  destruct (m !! p) as [q|] eqn:E; cbn [default]; unfold id.
  - rewrite <- (insert_delete_id m p q E) at 2.
    rewrite cart_cost_insert_absent by apply lookup_delete_eq.
    unfold entry_cost. cbn [fst snd]. rewrite Z.mul_add_distr_l.
    unfold id. lia.
  - rewrite (delete_id m p E). unfold entry_cost. cbn [fst snd].
    rewrite Z.add_0_l. unfold id. lia.
Qed.

(** Adding [n] units of a listed product to a cart of listed products
    raises the total the checkout computes by [n] times the product's
    price. *)
Theorem addItem_raises_total (cart : Cart.t) (p n : Z)
    (product : Database.Product) (w : World) :
  (∀ item qty, Cart.products cart !! item = Some qty →
               is_Some (Database.productDB (db w) !! item)) →
  Database.productDB (db w) !! p = Some product →
  checkout_total (dict_items (Cart.products cart)) 0 w
  = (Return (cart_cost (db w) cart), w)
  ∧ checkout_total
      (dict_items (Cart.products (state_of (Cart.addItem p n cart)))) 0 w
    = (Return (cart_cost (db w) cart + Database.price product * n), w).
Proof.
  intros Hlisted Hp. split; [apply checkout_total_listed_cart, Hlisted|].
  rewrite checkout_total_listed_cart.
  - rewrite cart_cost_addItem. unfold catalogue_price. rewrite Hp. reflexivity.
  - intros item qty. rewrite addItem_run. unfold state_of.
    cbn [snd Cart.products]. destruct (decide (p = item)) as [<-|Hne].
    + intros _. eauto.
    + rewrite lookup_insert_ne by done. apply Hlisted.
Qed.

Lemma addItem_raises_total_witness :
  (∀ item qty, Cart.products demo_cart !! item = Some qty →
               is_Some (Database.productDB (db demo_world) !! item))
  ∧ Database.productDB (db demo_world) !! 42 = Some demo_tea
  ∧ checkout_total
      (dict_items (Cart.products (state_of (Cart.addItem 42 2 demo_cart))))
      0 demo_world
    = (Return (cart_cost (db demo_world) demo_cart
               + Database.price demo_tea * 2), demo_world).
Proof.
  assert (∀ item qty, Cart.products demo_cart !! item = Some qty →
                      is_Some (Database.productDB (db demo_world) !! item))
    as Hlisted.
  { intros item qty Hitem. cbn in Hitem.
    apply lookup_singleton_Some in Hitem as [<- _].
    exists demo_tea. vm_compute. reflexivity. }
  assert (Database.productDB (db demo_world) !! 42 = Some demo_tea) as Hp
    by (vm_compute; reflexivity).
  split; [exact Hlisted|]. split; [exact Hp|].
  exact (proj2 (addItem_raises_total demo_cart 42 2 demo_tea demo_world
                  Hlisted Hp)).
Defined.

(** ** getCatalogue *)

Lemma catalogue_keys_lookup (categories : list (Z * Database.Category))
    (response : gmap string (list Database.Product)) (k : string) :
  catalogue_keys categories response !! k =
  if decide (k ∈ category_names categories) then Some []
  else response !! k.
Proof.
  revert response. induction categories as [|[i c] rest IH]; intros response.
  - cbn. case_decide as Hin; [|reflexivity]. inversion Hin.
  - cbn [catalogue_keys]. rewrite IH. unfold category_names.
    cbn [fmap list_fmap snd]. unfold dict_setitem.
    destruct (decide (k ∈ (λ e : Z * Database.Category,
                             Database.cat_name e.2) <$> rest)) as [Hin|Hnot].
    + rewrite decide_True by (right; exact Hin). reflexivity.
    + destruct (decide (k = Database.cat_name c)) as [->|Hne].
      * rewrite decide_True by left. apply lookup_insert_eq.
      * rewrite decide_False.
        -- apply lookup_insert_ne. done.
        -- intros Hin. apply elem_of_cons in Hin as [?|?]; done.
Qed.

Lemma category_names_table (self : Database.t) (k : string) :
  k ∈ category_names (dict_items (Database.categoryDB self))
  ↔ ∃ i c, Database.categoryDB self !! i = Some c ∧ Database.cat_name c = k.
Proof.
  unfold category_names, dict_items. rewrite list_elem_of_fmap. split.
  - intros ([i c] & -> & Hin). apply elem_of_map_to_list in Hin. eauto.
  - intros (i & c & Hc & <-). exists (i, c). split; [reflexivity|].
    apply elem_of_map_to_list, Hc.
Qed.

Lemma filed_under_cons (self : Database.t) (k : string) (i : Z)
    (p : Database.Product) (rest : list (Z * Database.Product)) :
  filed_under self k ((i, p) :: rest) =
  if decide (category_name self p = Some k)
  then p :: filed_under self k rest
  else filed_under self k rest.
Proof.
  unfold filed_under. cbn [fmap list_fmap snd]. rewrite filter_cons.
  reflexivity.
Qed.

(** The second loop when every product's category is in the table and
    every category name is a key of the response: it returns, each list
    grown by the products filed under its key. *)
Lemma catalogue_fill_returns (self : Database.t)
    (products : list (Z * Database.Product))
    (response : gmap string (list Database.Product)) :
  Forall (λ e, is_Some (Database.categoryDB self
                          !! Database.category e.2)) products →
  (∀ i c, Database.categoryDB self !! i = Some c →
          is_Some (response !! Database.cat_name c)) →
  ∃ response',
    catalogue_fill self products response = Return response'
    ∧ ∀ k, response' !! k
           = (λ l, l ++ filed_under self k products) <$> response !! k.
Proof.
  revert response. induction products as [|[i p] rest IH];
    intros response Hall Hkeys.
  - exists response. split; [reflexivity|]. intros k.
    destruct (response !! k) as [l|]; cbn; [|reflexivity].
    unfold filed_under. cbn. rewrite app_nil_r. reflexivity.
  - inversion Hall as [|? ? [c Hc] Hrest]; subst. cbn [snd] in Hc.
    cbn [catalogue_fill]. rewrite Hc. cbn [getattr_name].
    destruct (Hkeys _ _ Hc) as [l Hl]. unfold dict_getitem. rewrite Hl.
    destruct (IH (dict_setitem (Database.cat_name c) (l ++ [p]) response))
      as (response' & Hrun & Hlook).
    + exact Hrest.
    + intros i' c' Hc'. unfold dict_setitem.
      apply lookup_insert_is_Some'. right. eapply Hkeys, Hc'.
    + exists response'. split; [exact Hrun|]. intros k.
      rewrite Hlook, filed_under_cons. unfold dict_setitem, category_name.
      rewrite Hc. cbn [fmap option_fmap option_map].
      destruct (decide (Database.cat_name c = k)) as [<-|Hne].
      * rewrite lookup_insert_eq, Hl, decide_True by reflexivity.
        cbn. rewrite <- app_assoc. reflexivity.
      * rewrite lookup_insert_ne by done.
        rewrite decide_False by congruence. reflexivity.
Qed.

(** The second loop when some product's category is not in the table: it
    raises [AttributeError]. *)
Lemma catalogue_fill_raises (self : Database.t)
    (products : list (Z * Database.Product))
    (response : gmap string (list Database.Product)) :
  Exists (λ e, Database.categoryDB self !! Database.category e.2 = None)
    products →
  (∀ i c, Database.categoryDB self !! i = Some c →
          is_Some (response !! Database.cat_name c)) →
  catalogue_fill self products response = Raise AttributeError.
Proof.
  revert response. induction products as [|[i p] rest IH];
    intros response Hex Hkeys.
  - inversion Hex.
  - cbn [catalogue_fill].
    destruct (Database.categoryDB self !! Database.category p) as [c|] eqn:Hc;
      [|reflexivity].
    cbn [getattr_name]. destruct (Hkeys _ _ Hc) as [l Hl].
    unfold dict_getitem. rewrite Hl. apply IH.
    + inversion Hex as [? ? Hhd|? ? Htl]; subst; [|exact Htl].
      cbn [snd] in Hhd. congruence.
    + intros i' c' Hc'. unfold dict_setitem.
      apply lookup_insert_is_Some'. right. eapply Hkeys, Hc'.
Qed.

Lemma catalogue_keys_cover (self : Database.t) (i : Z) (c : Database.Category) :
  Database.categoryDB self !! i = Some c →
  is_Some (catalogue_keys (dict_items (Database.categoryDB self))
             (dict_setitem "unknown" [] ∅) !! Database.cat_name c).
Proof.
  intros Hc. rewrite catalogue_keys_lookup.
  rewrite decide_True; [eauto|]. apply category_names_table. eauto.
Qed.

(** The two ways [getCatalogue] can end. *)
Lemma getCatalogue_cases (self : Database.t) :
  ((∃ i p, Database.productDB self !! i = Some p
           ∧ Database.categoryDB self !! Database.category p = None)
   ∧ getCatalogue self = Raise AttributeError)
  ∨ ((∀ i p, Database.productDB self !! i = Some p →
             is_Some (Database.categoryDB self !! Database.category p))
     ∧ ∃ response,
         getCatalogue self = Return response
         ∧ ∀ k, data response !! k =
                if decide (k = "unknown"
                           ∨ k ∈ category_names
                                   (dict_items (Database.categoryDB self)))
                then Some (filed_under self k
                             (dict_items (Database.productDB self)))
                else None).
Proof.
  unfold getCatalogue.
  destruct (Forall_Exists_dec
              (λ e : Z * Database.Product,
                 is_Some (Database.categoryDB self !! Database.category e.2))
              (λ e, Database.categoryDB self !! Database.category e.2 = None)
              (λ e, match Database.categoryDB self !! Database.category e.2
                          as o return {is_Some o} + {o = None} with
                    | Some c => left (ex_intro _ c eq_refl)
                    | None => right eq_refl
                    end)
              (dict_items (Database.productDB self))) as [Hall|Hex].
  - right. split.
    + intros i p Hp. rewrite Forall_forall in Hall.
      apply (Hall (i, p)). apply elem_of_map_to_list, Hp.
    + destruct (catalogue_fill_returns self _ _ Hall
                  (catalogue_keys_cover self)) as (response & Hrun & Hlook).
      exists {| data := response |}. rewrite Hrun. split; [reflexivity|].
      intros k. cbn [data]. rewrite Hlook, catalogue_keys_lookup.
      unfold dict_setitem.
      destruct (decide (k ∈ category_names
                              (dict_items (Database.categoryDB self))))
        as [Hin|Hnot].
      * rewrite decide_True by (right; exact Hin). reflexivity.
      * destruct (decide (k = "unknown")) as [->|Hne].
        -- rewrite lookup_insert_eq, decide_True by (left; reflexivity).
           reflexivity.
        -- rewrite lookup_insert_ne, lookup_empty by done.
           rewrite decide_False by tauto. reflexivity.
  - left. split.
    + apply Exists_exists in Hex as ([i p] & Hin & Hnone).
      exists i, p. split; [apply elem_of_map_to_list, Hin|exact Hnone].
    + rewrite (catalogue_fill_raises self _ _ Hex (catalogue_keys_cover self)).
      reflexivity.
Qed.

(** [getCatalogue] raises exactly when some product of the table names a
    category the category table lacks, and [AttributeError] is all it can
    raise; otherwise it returns. *)
Theorem getCatalogue_raises_iff (self : Database.t) :
  (getCatalogue self = Raise AttributeError
   ↔ ∃ i p, Database.productDB self !! i = Some p
            ∧ Database.categoryDB self !! Database.category p = None)
  ∧ (∀ e, getCatalogue self = Raise e → e = AttributeError)
  ∧ ((∀ i p, Database.productDB self !! i = Some p →
             is_Some (Database.categoryDB self !! Database.category p)) →
     ∃ response, getCatalogue self = Return response).
Proof.
  destruct (getCatalogue_cases self)
    as [(Hbad & ->)|(Hall & response & -> & _)].
  - split; [tauto|]. split; [congruence|].
    intros Hall. destruct Hbad as (i & p & Hp & Hnone).
    destruct (Hall i p Hp) as [c Hc]. congruence.
  - split; [|split; [discriminate|eauto]].
    split; [discriminate|].
    intros (i & p & Hp & Hnone). destruct (Hall i p Hp) as [c Hc]. congruence.
Qed.

(** In the catalogue [getCatalogue] returns, a product is in the list
    under a key exactly when it is in the product table and the key is the
    name of its category. *)
Theorem getCatalogue_groups_by_category_name (self : Database.t)
    (response : CatalogueSchema) :
  getCatalogue self = Return response →
  ∀ k p,
    (∃ l, data response !! k = Some l ∧ p ∈ l)
    ↔ ∃ i c, Database.productDB self !! i = Some p
             ∧ Database.categoryDB self !! Database.category p = Some c
             ∧ Database.cat_name c = k.
Proof.
  intros Hrun k p.
  destruct (getCatalogue_cases self)
    as [(_ & Hraise)|(_ & response' & Hret & Hlook)]; [congruence|].
  rewrite Hret in Hrun. inversion Hrun; subst response'. rewrite Hlook.
  assert (p ∈ filed_under self k (dict_items (Database.productDB self))
          ↔ ∃ i c, Database.productDB self !! i = Some p
                   ∧ Database.categoryDB self !! Database.category p = Some c
                   ∧ Database.cat_name c = k) as Hfiled.
  { unfold filed_under, dict_items, category_name.
    rewrite list_elem_of_filter, list_elem_of_fmap. split.
    - intros (Hname & [i p'] & -> & Hin). cbn [snd] in *.
      apply elem_of_map_to_list in Hin. exists i.
      destruct (Database.categoryDB self !! Database.category p') as [c|];
        [|discriminate].
      exists c. inversion Hname. eauto.
    - intros (i & c & Hp & Hc & <-). rewrite Hc. split; [reflexivity|].
      exists (i, p). split; [reflexivity|]. apply elem_of_map_to_list, Hp. }
  split.
  - intros (l & Hl & Hin). case_decide; [|discriminate].
    inversion Hl; subst l. apply Hfiled, Hin.
  - intros Hex. rewrite decide_True.
    + eexists. split; [reflexivity|]. apply Hfiled, Hex.
    + right. apply category_names_table.
      destruct Hex as (i & c & _ & Hc & Hname). eauto.
Qed.

Lemma getCatalogue_groups_by_category_name_witness :
  (∃ response, getCatalogue demo_db = Return response
     ∧ ((∃ l, data response !! "drinks" = Some l ∧ demo_coffee ∈ l)
        ↔ ∃ i c, Database.productDB demo_db !! i = Some demo_coffee
                 ∧ Database.categoryDB demo_db
                     !! Database.category demo_coffee = Some c
                 ∧ Database.cat_name c = "drinks")).
Proof.
  destruct (getCatalogue demo_db) as [response|e] eqn:Hrun.
  - exists response. split; [reflexivity|].
    exact (getCatalogue_groups_by_category_name demo_db response Hrun
             "drinks" demo_coffee).
  - exfalso. vm_compute in Hrun. discriminate.
Defined.

(** The keys of the catalogue [getCatalogue] returns are ["unknown"] and
    the names of the categories, and the list under ["unknown"] is empty
    unless a category itself bears that name. *)
Theorem getCatalogue_keys_and_unknown_list (self : Database.t)
    (response : CatalogueSchema) :
  getCatalogue self = Return response →
  (∀ k, is_Some (data response !! k)
        ↔ k = "unknown"
          ∨ ∃ i c, Database.categoryDB self !! i = Some c
                   ∧ Database.cat_name c = k)
  ∧ ((∀ i c, Database.categoryDB self !! i = Some c →
             Database.cat_name c ≠ "unknown") →
     data response !! "unknown" = Some []).
Proof.
  intros Hrun.
  destruct (getCatalogue_cases self)
    as [(_ & Hraise)|(_ & response' & Hret & Hlook)]; [congruence|].
  rewrite Hret in Hrun. inversion Hrun; subst response'. split.
  - intros k. rewrite Hlook, <- category_names_table.
    case_decide as Hk; split; try tauto; try eauto.
    intros [? ?]. discriminate.
  - intros Hnames. rewrite Hlook, decide_True by (left; reflexivity).
    f_equal. unfold filed_under.
    destruct (filter _ _) as [|p t] eqn:Hf; [reflexivity|]. exfalso.
    assert (p ∈ p :: t) as Hin by left. rewrite <- Hf in Hin.
    apply list_elem_of_filter in Hin as [Hname _].
    unfold category_name in Hname.
    destruct (Database.categoryDB self !! Database.category p) as [c|] eqn:Hc;
      [|discriminate].
    inversion Hname. eapply Hnames; eauto.
Qed.

Lemma getCatalogue_keys_and_unknown_list_witness :
  ∃ response, getCatalogue demo_db = Return response
    ∧ (∀ i c, Database.categoryDB demo_db !! i = Some c →
              Database.cat_name c ≠ "unknown")
    ∧ data response !! "unknown" = Some [].
Proof.
  assert (∀ i c, Database.categoryDB demo_db !! i = Some c →
                 Database.cat_name c ≠ "unknown") as Hnames.
  { intros i c Hc. cbn in Hc. apply lookup_singleton_Some in Hc as [_ <-].
    discriminate. }
  destruct (getCatalogue demo_db) as [response|e] eqn:Hrun.
  - exists response. split; [reflexivity|]. split; [exact Hnames|].
    exact (proj2 (getCatalogue_keys_and_unknown_list demo_db response Hrun)
             Hnames).
  - exfalso. vm_compute in Hrun. discriminate.
Defined.

(** Deleting the category of a product that is still in the product table
    makes [getCatalogue] raise. *)
Theorem deleteCategory_breaks_catalogue (self : Database.t) (i : Z)
    (p : Database.Product) :
  Database.productDB self !! i = Some p →
  getCatalogue (state_of (Database.deleteCategory (Database.category p) self))
  = Raise AttributeError.
Proof.
  intros Hp.
  destruct (getCatalogue_cases
              (state_of (Database.deleteCategory (Database.category p) self)))
    as [(_ & Hraise)|(Hall & _)]; [exact Hraise|].
  exfalso. specialize (Hall i p). revert Hall.
  rewrite deleteCategory_run.
  destruct (Database.categoryDB self !! Database.category p) eqn:E;
    unfold state_of; cbn [snd Database.productDB Database.categoryDB];
    intros Hall; destruct (Hall Hp) as [c' Hc].
  - rewrite lookup_delete_eq in Hc. discriminate.
  - congruence.
Qed.

Lemma deleteCategory_breaks_catalogue_witness :
  Database.productDB demo_db !! 43 = Some demo_coffee
  ∧ (∃ response, getCatalogue demo_db = Return response)
  ∧ getCatalogue
      (state_of (Database.deleteCategory (Database.category demo_coffee)
                   demo_db))
    = Raise AttributeError.
Proof.
  assert (Database.productDB demo_db !! 43 = Some demo_coffee) as Hp
    by (vm_compute; reflexivity).
  split; [exact Hp|]. split.
  - destruct (getCatalogue demo_db) as [response|e] eqn:Hrun; [eauto|].
    exfalso. vm_compute in Hrun. discriminate.
  - exact (deleteCategory_breaks_catalogue demo_db 43 demo_coffee Hp).
Defined.

(** ** Logging in *)

Lemma cred_matches_true (cred : SessionHandler.ValidationSchema)
    (email password : string) :
  cred_matches cred email password = true
  ↔ SessionHandler.email cred = email ∧ SessionHandler.password cred = password.
Proof.
  unfold cred_matches. rewrite andb_true_iff, !bool_decide_eq_true. tauto.
Qed.

(** [getSessionID] never raises.  It answers "Unknown credentials" exactly
    when no credential record has both the email and the password given,
    an empty credential list included, and otherwise with a session ID of
    sixteen characters. *)
Theorem getSessionID_fails_iff_no_match (email password : string) (w : World) :
  (result_of (getSessionID email password w) = Return AuthenticationError
   ↔ ∀ cred, cred ∈ SessionHandler.database (sessions w) →
             ¬ (SessionHandler.email cred = email
                ∧ SessionHandler.password cred = password))
  ∧ (result_of (getSessionID email password w) = Return AuthenticationError
     ∨ ∃ tok, result_of (getSessionID email password w) = Return (SessionID tok)
              ∧ String.length tok = 16%nat).
Proof.
  rewrite getSessionID_run, login_run.
  destruct (first_match_split (SessionHandler.database (sessions w))
              email password)
    as [Hnone|(pre & cred & post & Hdb & Hpre & Hcred)].
  - rewrite login_scan_no_match by assumption.
    rewrite bool_decide_eq_true_2 by reflexivity.
    unfold result_of. cbn [fst]. split; [|left; reflexivity].
    split; [|reflexivity]. intros _ cred Hin Hmatch.
    rewrite Forall_forall in Hnone. specialize (Hnone cred Hin).
    apply cred_matches_true in Hmatch. congruence.
  - rewrite Hdb, login_scan_first_match by assumption.
    rewrite bool_decide_eq_false_2 by apply token_nonempty.
    unfold result_of. cbn [fst]. split.
    + split; [discriminate|]. intros Hno. exfalso.
      apply (Hno cred); [|apply cred_matches_true, Hcred].
      apply elem_of_app. right. left.
    + right. eexists. split; [reflexivity|].
      rewrite hex_length, tape_bytes_length. reflexivity.
Qed.

(** ** Products stay filed under their own ID *)

Lemma admin_route_db {A} (sessionID : string) (method : Py Database.t A)
    (k : A → Py World Response) (w : World) :
  (∀ a, readonly (k a)) →
  db (state_of
        ((admin ← is_admin sessionID;
          if negb admin then mret SessionError else on_db method ≫= k) w))
  = db w
  ∨ db (state_of
          ((admin ← is_admin sessionID;
            if negb admin then mret SessionError else on_db method ≫= k) w))
    = state_of (method (db w)).
Proof.
  intros Hk. unfold is_admin. rewrite !py_bind_run. unfold gets.
  destruct (negb _); [left; reflexivity|]. right.
  rewrite py_bind_run. unfold on_db, state_of.
  destruct (method (db w)) as [[a|e] d]; cbn [snd]; [|reflexivity].
  specialize (Hk a (with_db d w)). unfold state_of in Hk. rewrite Hk.
  reflexivity.
Qed.

Lemma keyed_by_id_insert (product : Database.Product) (d : Database.t) :
  keyed_by_id d →
  keyed_by_id
    {| Database.productDB :=
         <[Database.id product := product]> (Database.productDB d);
       Database.categoryDB := Database.categoryDB d |}.
Proof.
  intros Hinv k p. cbn [Database.productDB].
  destruct (decide (Database.id product = k)) as [<-|Hne].
  - rewrite lookup_insert_eq. congruence.
  - rewrite lookup_insert_ne by done. apply Hinv.
Qed.

(** When every product of the table is filed under its own ID, it stays
    so whatever request is served: [getProduct(k)] never hands back a
    product with another ID. *)
Theorem serve_keeps_keyed_by_id (r : Request) (w : World) :
  keyed_by_id (db w) → keyed_by_id (db (state_of (serve r w))).
Proof.
  intros Hinv. destruct r; cbn [serve].
  - destruct (getSessionID_cases email password w)
      as [(_ & _ & ->)|(tok & admin & _ & -> & _)]; exact Hinv.
  - rewrite cartGet_run. exact Hinv.
  - destruct (cartAdd_cases request w) as [->|(cart & _ & _ & ->)];
      exact Hinv.
  - rewrite cartCheckout_readonly. exact Hinv.
  - destruct (admin_route_db sessionID (Database.newProduct product)
                (λ _, response ← gets (λ w, Database.getProduct
                                             (Database.id product) (db w));
                      mret (ProductResponse response)) w) as [Heq|Heq];
      [auto with readonly| |]; unfold newProduct; rewrite Heq;
      [exact Hinv|].
    rewrite newProduct_run.
    destruct (Database.productDB (db w) !! Database.id product);
      [exact Hinv|apply keyed_by_id_insert, Hinv].
  - destruct (admin_route_db sessionID (Database.updateProduct product)
                (λ _, response ← gets (λ w, Database.getProduct
                                             (Database.id product) (db w));
                      mret (ProductResponse response)) w) as [Heq|Heq];
      [auto with readonly| |]; unfold updateProduct; rewrite Heq;
      [exact Hinv|].
    rewrite updateProduct_run.
    destruct (Database.productDB (db w) !! Database.id product);
      [apply keyed_by_id_insert, Hinv|exact Hinv].
  - destruct (admin_route_db sessionID (Database.deleteProduct product)
                (λ response, mret (BoolResponse response)) w) as [Heq|Heq];
      [auto with readonly| |]; unfold deleteProduct; rewrite Heq;
      [exact Hinv|].
    rewrite deleteProduct_run.
    destruct (Database.productDB (db w) !! product); [|exact Hinv].
    intros k p' Hp. cbn in Hp. apply lookup_delete_Some in Hp as [_ Hp].
    apply Hinv, Hp.
  - destruct (admin_route_db sessionID (Database.newCategory category)
                (λ response, mret (BoolResponse response)) w) as [Heq|Heq];
      [auto with readonly| |]; unfold newCategory; rewrite Heq;
      [exact Hinv|].
    rewrite newCategory_run.
    destruct (Database.categoryDB (db w) !! Database.cat_id category);
      exact Hinv.
  - destruct (admin_route_db sessionID (Database.deleteCategory category)
                (λ response, mret (BoolResponse response)) w) as [Heq|Heq];
      [auto with readonly| |]; unfold deleteCategory; rewrite Heq;
      [exact Hinv|].
    rewrite deleteCategory_run.
    destruct (Database.categoryDB (db w) !! category); exact Hinv.
Qed.

Lemma serve_keeps_keyed_by_id_witness :
  keyed_by_id (db demo_both_logged_in)
  ∧ keyed_by_id
      (db (state_of (serve (ReqNewProduct demo_admin_token demo_coffee)
                       demo_both_logged_in))).
Proof.
  assert (keyed_by_id (db demo_both_logged_in)) as Hinv.
  { intros k p Hp.
    assert (db demo_both_logged_in = db demo_world) as Hdb
      by (vm_compute; reflexivity).
    rewrite Hdb in Hp. cbn in Hp. unfold demo_products in Hp.
    apply lookup_singleton_Some in Hp as [<- <-]. reflexivity. }
  split; [exact Hinv|].
  exact (serve_keeps_keyed_by_id (ReqNewProduct demo_admin_token demo_coffee)
           demo_both_logged_in Hinv).
Defined.

(** ** Tokens and the entropy they are drawn from *)










